(** * MaxText page manager: a shallow embedding of [MaxText/page_managers.py]

    The paged KV-cache allocator keeps six integer arrays in a [PageState]
    and exposes three operations, [release_slot_pages],
    [reserve_prefill_slot_pages] and [reserve_decode_step_pages].

    Conventions of the embedding.
    - The arrays of a [PageState] are of one of two kinds.  [__init__]
      builds them with [jnp.zeros]: [jax.Array]s, which are immutable
      (every item assignment raises [TypeError]) and clamp an index that
      is out of range when read.  A caller may hand the operations a
      [PageState] of [numpy.ndarray]s instead: these are updated in place
      by item assignment, visibly through every alias, and raise
      [IndexError] for an index outside [-len .. len).  The six arrays of
      one table are of the same kind, which the table records.
    - The six arrays of the [PageState] handed to an operation are the
      store of the monad [M]; the local names the source binds to them
      ([page_status = page_state.page_status], ...) are aliases.  An
      operation ends either by returning a value or by raising; in both
      cases the store it leaves behind is part of the outcome.
    - [jnp.where (c, size=n)] is the tuple of index arrays of
      [jnp.nonzero]; for a 1-d [c] its only component holds the first [n]
      indices at which [c] holds, padded with 0.  It is a [jax.Array] of
      shape [(n,)] whatever the kind of [c]; storing such an array into a
      single cell of an array raises [TypeError].
    - [jax.lax.cond] takes callables for its branches and a scalar
      predicate; called with integers for branches it raises [TypeError].
    - [true_length / page_size] is Python's division of integers, the
      quotient correctly rounded to binary64; [jnp.ceil] of it computes in
      binary32.  Both are modelled bit for bit on [SpecFloat]. *)

From Stdlib Require Import ZArith Lia String.
From Stdlib Require SpecFloat.
From stdpp Require Import base tactics option list.

Local Open Scope Z_scope.

(** ** Array primitives *)

Module Np.

Definition int32_min : Z := - 2 ^ 31.
Definition int32_max : Z := 2 ^ 31 - 1.

Definition in_int32 (z : Z) : bool := (int32_min <=? z) && (z <=? int32_max).

Definition wrap32 (z : Z) : Z := (z + 2 ^ 31) mod 2 ^ 32 - 2 ^ 31.

(** The ceiling of [a / b] in exact integer arithmetic: the ceiling of a
    float is taken with it, and it is what a specification means by
    [ceil (a / b)]. *)
Definition ceil_div (a b : Z) : Z := - ((- a) / b).

(** A Python [int] as a float datum with its exact value (the mantissa is
    not normalised). *)
Definition float_of_int (z : Z) : SpecFloat.spec_float :=
  match z with
  | 0 => SpecFloat.S754_zero false
  | Zpos p => SpecFloat.S754_finite false p 0
  | Zneg p => SpecFloat.S754_finite true p 0
  end.

(** The binary32 number nearest to a binary64 one (ties to even). *)
Definition to_float32 (x : SpecFloat.spec_float) : SpecFloat.spec_float :=
  match x with
  | SpecFloat.S754_finite s m e => SpecFloat.binary_round 24 128 s m e
  | _ => x
  end.

(** The least integer not below a finite float. *)
Definition float_ceil (x : SpecFloat.spec_float) : Z :=
  match x with
  | SpecFloat.S754_finite s m e =>
      let v := if s then Zneg m else Zpos m in
      if 0 <=? e then v * 2 ^ e else ceil_div v (2 ^ (- e))
  | _ => 0
  end.

(** [jnp.ceil (x).astype (jnp.int32)] for a binary32 [x]: the ceiling when
    it is an [int32]; a value out of range is taken to the nearest bound,
    as XLA's conversion does. *)
Definition ceil_astype_int32 (x : SpecFloat.spec_float) : Z :=
  match x with
  | SpecFloat.S754_infinity s => if s then int32_min else int32_max
  | _ => Z.max int32_min (Z.min int32_max (float_ceil x))
  end.

(** NumPy index normalisation for an axis of length [len]. *)
Definition norm_index (len : nat) (i : Z) : option nat :=
  if (0 <=? i) && (i <? Z.of_nat len) then Some (Z.to_nat i)
  else if (- Z.of_nat len <=? i) && (i <? 0) then Some (Z.to_nat (i + Z.of_nat len))
  else None.

(** The position a [jax.Array] reads for the index [i]: a negative index
    counts from the end, and the result is clamped to the axis. *)
Definition clamp_index (len : nat) (i : Z) : nat :=
  Z.to_nat (Z.max 0 (Z.min (Z.of_nat len - 1) (if i <? 0 then i + Z.of_nat len else i))).

(** [jnp.count_nonzero a]. *)
Fixpoint count_nonzero (a : list Z) : Z :=
  match a with
  | [] => 0
  | x :: a' => (if x =? 0 then 0 else 1) + count_nonzero a'
  end.

(** Indices of the [true] entries of [c], in ascending order, counted
    from [i]. *)
Fixpoint nonzero_from (i : nat) (c : list bool) : list Z :=
  match c with
  | [] => []
  | b :: c' =>
      if b then Z.of_nat i :: nonzero_from (S i) c' else nonzero_from (S i) c'
  end.

(** [jnp.where (c, size=size)[0]]: the first [size] indices at which [c]
    holds, padded with the fill value [0]. *)
Definition where_size (c : list bool) (size : nat) : list Z :=
  take size (nonzero_from 0 c ++ replicate size 0).

End Np.

Import Np.

(** ** Exceptions and the store monad *)

Inductive exn : Type :=
  | AssertionError (msg : string)
  | IndexError
  | UnboundLocalError
  | OverflowError
  | ValueError
  | ZeroDivisionError
  | TypeError.

(** The two array types a [PageState] is built from. *)
Inductive array_kind : Type :=
  | Jax      (* jax.Array, what [jnp.zeros] returns *)
  | Numpy.   (* numpy.ndarray *)

(** [@struct.dataclass class PageState], with the kind of its arrays. *)
Record PageState : Type := mkPageState {
  kind : array_kind;
  page_status : list Z;
  seq_page_idx_mappings : list (list Z);
  seq_lengths : list Z;
  seq_num_pages : list Z;
  seq_page_indices : list Z;
  seq_page_slice_indices : list Z
}.

(** The same table held in arrays of kind [k]. *)
Definition with_kind (k : array_kind) (st : PageState) : PageState :=
  mkPageState k (page_status st) (seq_page_idx_mappings st) (seq_lengths st)
    (seq_num_pages st) (seq_page_indices st) (seq_page_slice_indices st).

(** A computation over the arrays of the caller's [PageState]. *)
Definition M (A : Type) : Type := PageState -> (exn + A) * PageState.

Definition M_ret {A} (a : A) : M A := fun st => (inr a, st).

Definition M_bind {A B} (k : A -> M B) (m : M A) : M B :=
  fun st =>
    match m st with
    | (inr a, st') => k a st'
    | (inl e, st') => (inl e, st')
    end.

#[global] Instance M_mret : MRet M := @M_ret.
#[global] Instance M_mbind : MBind M := @M_bind.

Definition raise {A} (e : exn) : M A := fun st => (inl e, st).

Definition lift {A} (r : exn + A) : M A := fun st => (r, st).

Definition assert_ (b : bool) (msg : string) : M unit :=
  if b then mret tt else raise (AssertionError msg).

(** One of the arrays of the store; writing it leaves the kind alone. *)
Record field (A : Type) : Type := mkField {
  fget : PageState -> A;
  fset : A -> PageState -> PageState;
  fset_kind : forall v st, kind (fset v st) = kind st
}.
Arguments fget {A} _ _.
Arguments fset {A} _ _ _.
Arguments fset_kind {A} _ _ _.

Definition f_page_status : field (list Z) :=
  mkField _ page_status
    (fun v st => mkPageState (kind st) v (seq_page_idx_mappings st) (seq_lengths st)
                   (seq_num_pages st) (seq_page_indices st) (seq_page_slice_indices st))
    (fun _ _ => eq_refl).
Definition f_seq_page_idx_mappings : field (list (list Z)) :=
  mkField _ seq_page_idx_mappings
    (fun v st => mkPageState (kind st) (page_status st) v (seq_lengths st)
                   (seq_num_pages st) (seq_page_indices st) (seq_page_slice_indices st))
    (fun _ _ => eq_refl).
Definition f_seq_lengths : field (list Z) :=
  mkField _ seq_lengths
    (fun v st => mkPageState (kind st) (page_status st) (seq_page_idx_mappings st) v
                   (seq_num_pages st) (seq_page_indices st) (seq_page_slice_indices st))
    (fun _ _ => eq_refl).
Definition f_seq_num_pages : field (list Z) :=
  mkField _ seq_num_pages
    (fun v st => mkPageState (kind st) (page_status st) (seq_page_idx_mappings st)
                   (seq_lengths st) v (seq_page_indices st) (seq_page_slice_indices st))
    (fun _ _ => eq_refl).
Definition f_seq_page_indices : field (list Z) :=
  mkField _ seq_page_indices
    (fun v st => mkPageState (kind st) (page_status st) (seq_page_idx_mappings st)
                   (seq_lengths st) (seq_num_pages st) v (seq_page_slice_indices st))
    (fun _ _ => eq_refl).
Definition f_seq_page_slice_indices : field (list Z) :=
  mkField _ seq_page_slice_indices
    (fun v st => mkPageState (kind st) (page_status st) (seq_page_idx_mappings st)
                   (seq_lengths st) (seq_num_pages st) (seq_page_indices st) v)
    (fun _ _ => eq_refl).

Definition read {A} (f : field A) : M A := fun st => (inr (fget f st), st).
Definition write {A} (f : field A) (v : A) : M unit := fun st => (inr tt, fset f v st).
Definition snapshot : M PageState := fun st => (inr st, st).
Definition array_type : M array_kind := fun st => (inr (kind st), st).

(** [a[i]] for an integer [i] and a [numpy.ndarray] [a]. *)
Definition getitem {A} (a : list A) (i : Z) : exn + A :=
  match norm_index (length a) i with
  | Some n => match a !! n with Some x => inr x | None => inl IndexError end
  | None => inl IndexError
  end.

(** [a[i]] for an integer [i] and a [jax.Array] [a]: the index is clamped;
    an axis of size 0 cannot be indexed. *)
Definition getitem_jax {A} (a : list A) (i : Z) : exn + A :=
  match a !! clamp_index (length a) i with
  | Some x => inr x
  | None => inl IndexError
  end.

Definition getitem_of {A} (k : array_kind) (a : list A) (i : Z) : exn + A :=
  match k with
  | Numpy => getitem a i
  | Jax => getitem_jax a i
  end.

(** [a[i] = v] for an integer [i] and a [numpy.ndarray] [a]. *)
Definition setitem {A} (a : list A) (i : Z) (v : A) : exn + list A :=
  match norm_index (length a) i with
  | Some n => inr (<[n := v]> a)
  | None => inl IndexError
  end.

(** [a[idx]] for an integer array [idx]: a fresh array, not a view. *)
Fixpoint getitems {A} (k : array_kind) (a : list A) (idx : list Z) : exn + list A :=
  match idx with
  | [] => inr []
  | i :: idx' =>
      match getitem_of k a i, getitems k a idx' with
      | inr x, inr xs => inr (x :: xs)
      | inl e, _ => inl e
      | _, inl e => inl e
      end
  end.

(** [a[idx] = v] for an integer array [idx] and a [numpy.ndarray] [a]; the
    assigned value is given as a function of the entry it replaces (a
    value broadcast over a row keeps the row's length).  The indices are
    checked before anything is written. *)
Fixpoint setitems {A} (a : list A) (idx : list Z) (v : A -> A) : exn + list A :=
  match idx with
  | [] => inr a
  | i :: idx' =>
      match norm_index (length a) i, setitems a idx' v with
      | Some n, inr a' => inr (alter v n a')
      | None, _ => inl IndexError
      | _, inl e => inl e
      end
  end.

(** A Python [int] stored into an [int32] array. *)
Definition to_int32 (z : Z) : exn + Z :=
  if in_int32 z then inr z else inl OverflowError.

(** Elementwise binary operation with broadcasting of 1-d arrays. *)
Fixpoint zip_with_Z (f : Z -> Z -> Z) (a b : list Z) : list Z :=
  match a, b with
  | x :: a', y :: b' => f x y :: zip_with_Z f a' b'
  | _, _ => []
  end.

Definition broadcast2 (f : Z -> Z -> Z) (a b : list Z) : exn + list Z :=
  if (length a =? length b)%nat then inr (zip_with_Z f a b)
  else match a, b with
       | [x], _ => inr (map (f x) b)
       | _, [y] => inr (map (fun x => f x y) a)
       | _, _ => inl ValueError
       end.

(** [arr[i]] on an array of the store, and [row[i]] on a row read from
    it. *)
Definition getitem_at {A} (f : field (list A)) (i : Z) : M A :=
  k ← array_type; a ← read f; lift (getitem_of k a i).

Definition getitem_row {A} (row : list A) (i : Z) : M A :=
  k ← array_type; lift (getitem_of k row i).

(** [arr[i] = v] on an array of the store: [TypeError] on a [jax.Array],
    an update in place on a [numpy.ndarray]. *)
Definition setitem_at {A} (f : field (list A)) (i : Z) (v : A) : M unit :=
  k ← array_type;
  match k with
  | Jax => raise TypeError
  | Numpy => a ← read f; a' ← lift (setitem a i v); write f a'
  end.

Definition setitems_at {A} (f : field (list A)) (idx : list Z) (v : A -> A) : M unit :=
  k ← array_type;
  match k with
  | Jax => raise TypeError
  | Numpy => a ← read f; a' ← lift (setitems a idx v); write f a'
  end.

(** [arr[i] = z] for a Python [int] [z]: on a [numpy.ndarray] the index is
    resolved first and the value converted to [int32] then. *)
Definition setint_at (f : field (list Z)) (i : Z) (z : Z) : M unit :=
  k ← array_type;
  match k with
  | Jax => raise TypeError
  | Numpy =>
      a ← read f;
      match norm_index (length a) i with
      | None => raise IndexError
      | Some n => v ← lift (to_int32 z); write f (<[n := v]> a)
      end
  end.

(** [row[i] = v] and [arr[i] = v] where [v] is a [jax.Array] of shape
    [(1,)] and the target is a single cell: never a store.  A
    [jax.Array] target raises [TypeError] as for any assignment; a
    [numpy.ndarray] target resolves the index and then fails to convert
    [v] to a scalar. *)
Definition store_array_in_cell {A} (row : list A) (i : Z) (v : list Z) : M unit :=
  k ← array_type;
  match k with
  | Jax => raise TypeError
  | Numpy =>
      match norm_index (length row) i with
      | None => raise IndexError
      | Some _ => raise TypeError
      end
  end.

Definition store_array_in_cell_at {A} (f : field (list A)) (i : Z) (v : list Z)
    : M unit :=
  a ← read f; store_array_in_cell a i v.

(** [for x in l: acc = body x acc], the accumulator standing for the local
    variables the loop body assigns. *)
Fixpoint for_each {A B} (l : list A) (acc : B) (body : A -> B -> M B) : M B :=
  match l with
  | [] => mret acc
  | x :: l' => acc' ← body x acc; for_each l' acc' body
  end.

(** [range (n)]. *)
Definition range (n : Z) : list Z := map Z.of_nat (seq 0 (Z.to_nat n)).

(** ** The page manager *)

Record PageManager : Type := mkPageManager {
  num_pages : Z;
  page_size : Z;
  slots : Z;
  max_target_length : Z;
  max_prefill_predict_length : Z;
  max_pages_per_slot : Z;
  max_pages_per_prefill : Z;
  page_state : PageState
}.

(** [jnp.zeros ((n,))] and [jnp.zeros ((n, m))]. *)
Definition zeros (n : Z) : list Z := replicate (Z.to_nat n) 0.
Definition zeros2 (n m : Z) : list (list Z) := replicate (Z.to_nat n) (zeros m).

(** [PageManager.__init__]; the arrays of its table are [jax.Array]s. *)
Definition PageManager_init
    (num_pages page_size slots max_target_length max_prefill_predict_length : Z)
    : exn + PageManager :=
  if page_size =? 0 then inl ZeroDivisionError
  else if negb (max_target_length mod page_size =? 0) then inl (AssertionError "")
  else if negb (max_prefill_predict_length mod page_size =? 0) then inl (AssertionError "")
  else
    let max_pages_per_slot := max_target_length / page_size in
    let max_pages_per_prefill := max_prefill_predict_length / page_size in
    if (num_pages <? 0) || (slots <? 0) || (max_pages_per_slot <? 0) then inl TypeError
    else
      inr (mkPageManager num_pages page_size slots max_target_length
             max_prefill_predict_length max_pages_per_slot max_pages_per_prefill
             (mkPageState Jax (zeros num_pages) (zeros2 slots max_pages_per_slot)
                (zeros slots) (zeros slots) (zeros slots) (zeros slots))).

Definition all_pages_in_use : string := "All pages are in use.".

(** [PageManager.release_slot_pages].  The loop body reads
    [seq_page_idx_mappings[slot][i]], clears that entry of [page_status],
    and then assigns 0 to the whole row [seq_page_idx_mappings[slot]]. *)
Definition release_slot_pages (self : PageManager) (slot : Z) : M PageState :=
  n ← getitem_at f_seq_num_pages slot;
  for_each (range n) tt (fun i _ =>
    row ← getitem_at f_seq_page_idx_mappings slot;
    page_idx ← getitem_row row i;
    setitem_at f_page_status page_idx 0;;
    row ← getitem_at f_seq_page_idx_mappings slot;
    setitem_at f_seq_page_idx_mappings slot (replicate (length row) 0));;
  setitem_at f_seq_lengths slot 0;;
  setitem_at f_seq_num_pages slot 0;;
  setitem_at f_seq_page_indices slot 0;;
  setitem_at f_seq_page_slice_indices slot 0;;
  snapshot.

(** [assert jnp.count_nonzero (page_status[1:]) != self.num_pages-1,
    "All pages are in use."] *)
Definition assert_free_page (self : PageManager) : M unit :=
  status ← read f_page_status;
  assert_ (negb (count_nonzero (drop 1 status) =? num_pages self - 1)) all_pages_in_use.

(** [page_idx = jnp.where ((page_status[1:]==0), size=1)[0]]: a one-element
    array holding an index into the slice [page_status[1:]]. *)
Definition first_free (status : list Z) : list Z :=
  where_size (map (fun x => x =? 0) (drop 1 status)) 1.

(** [page_idx = jnp.where (...)[0]] followed by [page_status[page_idx] = 1]. *)
Definition mark_first_free : M (list Z) :=
  status ← read f_page_status;
  let page_idx := first_free status in
  setitems_at f_page_status page_idx (fun _ => 1);;
  mret page_idx.

(** [jnp.ceil (true_length / self.page_size).astype (jnp.int32)]: the
    quotient of the two Python integers rounded to binary64
    ([ZeroDivisionError] for a zero divisor, [OverflowError] beyond the
    range of binary64), rounded again to binary32 when it enters
    [jnp.ceil], and the ceiling of that as an [int32]. *)
Definition prefill_num_pages (true_length page_size : Z) : exn + Z :=
  if page_size =? 0 then inl ZeroDivisionError
  else
    match SpecFloat.SFdiv 53 1024 (float_of_int true_length) (float_of_int page_size) with
    | SpecFloat.S754_infinity _ => inl OverflowError
    | q => inr (ceil_astype_int32 (to_float32 q))
    end.

(** [PageManager.reserve_prefill_slot_pages], from the line after the call
    of [release_slot_pages] on.  [None] stands for the unbound local
    [page_idx]. *)
Definition reserve_prefill_after_release (self : PageManager) (slot true_length : Z)
    : M PageState :=
  prefill_slot_num_pages ← lift (prefill_num_pages true_length (page_size self));
  let prefill_slot_page_slice_idx := (true_length - 1) mod page_size self in
  last_page_idx ← for_each (range prefill_slot_num_pages) None (fun i _ =>
    assert_free_page self;;
    page_idx ← mark_first_free;
    row ← getitem_at f_seq_page_idx_mappings slot;
    store_array_in_cell row i page_idx;;
    mret (Some page_idx));
  setint_at f_seq_lengths slot true_length;;
  setitem_at f_seq_num_pages slot prefill_slot_num_pages;;
  page_idx ← match last_page_idx with
             | Some page_idx => mret page_idx
             | None => raise UnboundLocalError
             end;
  store_array_in_cell_at f_seq_page_indices slot page_idx;;
  setint_at f_seq_page_slice_indices slot prefill_slot_page_slice_idx;;
  snapshot.

(** [PageManager.reserve_prefill_slot_pages]. *)
Definition reserve_prefill_slot_pages (self : PageManager) (slot true_length : Z)
    : M PageState :=
  release_slot_pages self slot;;
  reserve_prefill_after_release self slot true_length.

(** [jax.lax.cond (pred, true_fun, false_fun)] as line 144 calls it, with
    the integers 1 and 0 for the two branches and an array for the
    predicate: the branches are not callable and the predicate is not a
    scalar, so the call raises [TypeError] and evaluates nothing. *)
Definition lax_cond_of_ints (pred : list bool) (true_fun false_fun : Z)
    : exn + list Z :=
  inl TypeError.

(** [seq_lengths / self.page_size], elementwise, as a binary32 number:
    NumPy divides in binary64 and [jnp.ceil] rounds the quotient to
    binary32; JAX divides in binary32. *)
Definition array_truediv (k : array_kind) (l page_size : Z) : SpecFloat.spec_float :=
  match k with
  | Numpy =>
      to_float32 (SpecFloat.SFdiv 53 1024 (float_of_int l) (float_of_int page_size))
  | Jax =>
      SpecFloat.SFdiv 24 128 (to_float32 (float_of_int l))
        (to_float32 (float_of_int page_size))
  end.

(** [PageManager.reserve_decode_step_pages].  Line 144 raises; the
    statements after it, which are never reached, are transcribed with
    [seq_lengths += ...] an update in place on a [numpy.ndarray] and a new
    binding on a [jax.Array], [updating_slots] the one-component tuple
    [jnp.where] returns, and [seq_page_idx_mappings[slot]], for an array
    [slot], a gathered copy; the table they would return is recorded with
    the kind of the caller's arrays. *)
Definition reserve_decode_step_pages (self : PageManager) : M PageState :=
  k ← array_type;
  lens ← read f_seq_lengths;
  inc ← lift (lax_cond_of_ints (map (fun l => 0 <? l) lens) 1 0);
  lens ← lift (broadcast2 (fun a b => wrap32 (a + b)) lens inc);
  match k with
  | Numpy => write f_seq_lengths lens
  | Jax => mret tt
  end;;
  current_seq_num_pages ← read f_seq_num_pages;
  let seq_num_pages :=
    map (fun l => ceil_astype_int32 (array_truediv k l (page_size self))) lens in
  let seq_page_slice_indices :=
    map (fun l => wrap32 (wrap32 (l - 1) mod page_size self)) lens in
  seq_new_page ← lift (broadcast2 (fun a b => wrap32 (a - b))
                         seq_num_pages current_seq_num_pages);
  let num_new_pages := count_nonzero seq_new_page in
  (if negb (num_new_pages =? 0) then
     let updating_slots :=
       [where_size (map (fun d => 0 <? d) seq_new_page) (Z.to_nat (slots self))] in
     for_each (range num_new_pages) tt (fun i _ =>
       assert_free_page self;;
       slot ← lift (getitem updating_slots i);
       page_idx ← mark_first_free;
       mappings ← read f_seq_page_idx_mappings;
       rows ← lift (getitems k mappings slot);
       counts ← lift (getitems Jax seq_num_pages slot);
       lift (setitems rows (map (fun c => wrap32 (c - 1)) counts)
               (fun row => replicate (length row) (hd 0 page_idx)));;
       setitems_at f_seq_page_indices slot (fun _ => hd 0 page_idx))
   else mret tt);;
  st ← snapshot;
  mret (mkPageState k (page_status st) (seq_page_idx_mappings st) lens
          seq_num_pages (seq_page_indices st) seq_page_slice_indices).

(** ** Predicates and invariants used in the proofs *)

(** [wpk k m Q E st]: run from a store [st] of kind [k], [m] either
    returns a value and a store that satisfy [Q] or raises with an
    exception and a store that satisfy [E]; the store it leaves is of
    kind [k] again. *)
Definition wpk (k : array_kind) {A} (m : M A) (Q : A -> PageState -> Prop)
    (E : exn -> PageState -> Prop) (st : PageState) : Prop :=
  kind st = k ->
  match m st with
  | (inr a, st') => kind st' = k /\ Q a st'
  | (inl e, st') => kind st' = k /\ E e st'
  end.




(** Tables whose rows hold only zeros. *)
Definition all_zero (a : list Z) : Prop := Forall (fun x => x = 0) a.

(** One call of an operation on the table [T]: its result is the state in
    which the call leaves the caller's arrays, whether it returns or
    raises, or the table it returns. *)
Inductive step (self : PageManager) (T : PageState) : PageState -> Prop :=
  | step_release slot r st :
      release_slot_pages self slot T = (r, st) -> step self T st
  | step_release_returns slot T' st :
      release_slot_pages self slot T = (inr T', st) -> step self T T'
  | step_prefill slot true_length r st :
      reserve_prefill_slot_pages self slot true_length T = (r, st) -> step self T st
  | step_prefill_returns slot true_length T' st :
      reserve_prefill_slot_pages self slot true_length T = (inr T', st) ->
      step self T T'
  | step_decode r st :
      reserve_decode_step_pages self T = (r, st) -> step self T st
  | step_decode_returns T' st :
      reserve_decode_step_pages self T = (inr T', st) -> step self T T'.

(** The tables obtained from [T0] by any sequence of calls of the three
    operations. *)
Inductive reachable (self : PageManager) (T0 : PageState) : PageState -> Prop :=
  | reach_start : reachable self T0 T0
  | reach_step T T' : reachable self T0 T -> step self T T' -> reachable self T0 T'.

(** [i] is an index NumPy accepts for [a]. *)
Definition valid_index {A} (a : list A) (i : Z) : bool :=
  match norm_index (length a) i with Some _ => true | None => false end.

(** The conditions under which [release_slot_pages] raises nothing. *)
Definition release_ready (slot : Z) (st : PageState) : bool :=
  valid_index (seq_lengths st) slot && valid_index (seq_page_indices st) slot &&
  valid_index (seq_page_slice_indices st) slot &&
  match getitem (seq_num_pages st) slot with
  | inr n =>
      if 0 <? n then
        match getitem (seq_page_idx_mappings st) slot with
        | inr row =>
            (n <=? Z.of_nat (length row)) &&
            match row !! 0%nat with
            | Some v => valid_index (page_status st) v
            | None => false
            end
        | inl _ => false
        end
      else true
  | inl _ => false
  end.

(** [a'] has the length of [a] and a zero wherever [a] has one. *)
Definition zeros_kept (a a' : list Z) : Prop :=
  length a' = length a /\ forall p, a !! p = Some 0 -> a' !! p = Some 0.

(** The store after [i] passes of the loop of [release_slot_pages], started
    from [st0]. *)
Record release_inv (slot : Z) (st0 : PageState) (i : nat) (st : PageState) : Prop := {
  ri_lengths : seq_lengths st = seq_lengths st0;
  ri_num_pages : seq_num_pages st = seq_num_pages st0;
  ri_indices : seq_page_indices st = seq_page_indices st0;
  ri_slices : seq_page_slice_indices st = seq_page_slice_indices st0;
  ri_status : zeros_kept (page_status st0) (page_status st);
  ri_rows : length (seq_page_idx_mappings st) = length (seq_page_idx_mappings st0);
  ri_first : i = 0%nat -> seq_page_idx_mappings st = seq_page_idx_mappings st0;
  ri_later : (0 < i)%nat ->
    exists row0 v k,
      getitem (seq_page_idx_mappings st0) slot = inr row0 /\
      getitem (seq_page_idx_mappings st) slot = inr (replicate (length row0) 0) /\
      row0 !! 0%nat = Some v /\
      norm_index (length (page_status st0)) v = Some k /\
      page_status st !! k = Some 0
}.

(** What a successful release guarantees, relative to the table [st0] it
    started from. *)
Definition release_post (slot : Z) (st0 st' : PageState) : Prop :=
  zeros_kept (page_status st0) (page_status st') /\
  (forall n row v k,
     getitem (seq_num_pages st0) slot = inr n -> 0 < n ->
     getitem (seq_page_idx_mappings st0) slot = inr row ->
     row !! 0%nat = Some v ->
     norm_index (length (page_status st0)) v = Some k ->
     page_status st' !! k = Some 0).

(** The store after [i] passes of the loop of [release_slot_pages], as far
    as entries other than those the loop writes are concerned: the loop
    writes [page_status] at the first entry of the slot's row and at index
    0, and the slot's own row. *)
Record release_frame_inv (slot : Z) (st0 : PageState) (i : nat) (st : PageState)
    : Prop := {
  rf_lengths : seq_lengths st = seq_lengths st0;
  rf_num_pages : seq_num_pages st = seq_num_pages st0;
  rf_indices : seq_page_indices st = seq_page_indices st0;
  rf_slices : seq_page_slice_indices st = seq_page_slice_indices st0;
  rf_status_length : length (page_status st) = length (page_status st0);
  rf_status : forall p : nat,
    p <> 0%nat ->
    (forall row0 v k,
       getitem (seq_page_idx_mappings st0) slot = inr row0 ->
       row0 !! 0%nat = Some v ->
       norm_index (length (page_status st0)) v = Some k -> k <> p) ->
    page_status st !! p = page_status st0 !! p;
  rf_rows_length :
    length (seq_page_idx_mappings st) = length (seq_page_idx_mappings st0);
  rf_rows : forall sm s : nat,
    norm_index (length (seq_page_idx_mappings st0)) slot = Some sm ->
    s <> sm ->
    seq_page_idx_mappings st !! s = seq_page_idx_mappings st0 !! s;
  rf_first : i = 0%nat -> seq_page_idx_mappings st = seq_page_idx_mappings st0;
  rf_later : (0 < i)%nat ->
    exists len, getitem (seq_page_idx_mappings st) slot = inr (replicate len 0)
}.

(** What a release that returns leaves untouched, and what it resets. *)
Definition release_frame (slot : Z) (st0 st' : PageState) : Prop :=
  (forall n, norm_index (length (seq_lengths st0)) slot = Some n ->
     seq_lengths st' = <[n := 0]> (seq_lengths st0)) /\
  (forall n, norm_index (length (seq_num_pages st0)) slot = Some n ->
     seq_num_pages st' = <[n := 0]> (seq_num_pages st0)) /\
  (forall n, norm_index (length (seq_page_indices st0)) slot = Some n ->
     seq_page_indices st' = <[n := 0]> (seq_page_indices st0)) /\
  (forall n, norm_index (length (seq_page_slice_indices st0)) slot = Some n ->
     seq_page_slice_indices st' = <[n := 0]> (seq_page_slice_indices st0)) /\
  (forall sm s : nat,
     norm_index (length (seq_page_idx_mappings st0)) slot = Some sm ->
     s <> sm ->
     seq_page_idx_mappings st' !! s = seq_page_idx_mappings st0 !! s) /\
  (forall p : nat,
     p <> 0%nat ->
     (forall row0 v k,
        getitem (seq_page_idx_mappings st0) slot = inr row0 ->
        row0 !! 0%nat = Some v ->
        norm_index (length (page_status st0)) v = Some k -> k <> p) ->
     page_status st' !! p = page_status st0 !! p).


(** The arrays of a table have the sizes [PageManager.__init__] gives
    them. *)
Definition table_shape (self : PageManager) (st : PageState) : Prop :=
  length (page_status st) = Z.to_nat (num_pages self) /\
  length (seq_page_idx_mappings st) = Z.to_nat (slots self) /\
  Forall (fun row : list Z => length row = Z.to_nat (max_pages_per_slot self))
    (seq_page_idx_mappings st) /\
  length (seq_lengths st) = Z.to_nat (slots self) /\
  length (seq_num_pages st) = Z.to_nat (slots self) /\
  length (seq_page_indices st) = Z.to_nat (slots self) /\
  length (seq_page_slice_indices st) = Z.to_nat (slots self).

(** [a'] is [a] with some entries set to 0. *)
Definition only_cleared (a a' : list Z) : Prop :=
  length a' = length a /\ forall p, a' !! p = a !! p \/ a' !! p = Some 0.

(** The four bookkeeping entries of a slot are 0. *)
Definition slot_reset (slot : Z) (st : PageState) : Prop :=
  getitem (seq_lengths st) slot = inr 0 /\
  getitem (seq_num_pages st) slot = inr 0 /\
  getitem (seq_page_indices st) slot = inr 0 /\
  getitem (seq_page_slice_indices st) slot = inr 0.


(** ** Well-formed tables and what a release leaves alone *)








(** The manager [self] with another limit of pages per prefill. *)
Definition with_max_pages_per_prefill (limit : Z) (self : PageManager) : PageManager :=
  mkPageManager (num_pages self) (page_size self) (slots self)
    (max_target_length self) (limit * page_size self)
    (max_pages_per_slot self) limit (page_state self).

(** The slot's row, when the slot held pages in [st0], is all zeros in
    [st]. *)
Definition release_row_cleared (slot : Z) (st0 st : PageState) : Prop :=
  forall n row0,
    getitem (seq_num_pages st0) slot = inr n -> 0 < n ->
    getitem (seq_page_idx_mappings st0) slot = inr row0 ->
    getitem (seq_page_idx_mappings st) slot = inr (replicate (length row0) 0).

(** No page from 1 on is marked, no row records a page, no slot counts a
    page or names a current page. *)
Definition nothing_allocated (st : PageState) : Prop :=
  all_zero (drop 1 (page_status st)) /\
  Forall all_zero (seq_page_idx_mappings st) /\
  Forall (fun n => n <= 0) (seq_num_pages st) /\
  all_zero (seq_page_indices st) /\
  all_zero (seq_page_slice_indices st).

Module Tables.

(** [PageManager (num_pages=5, page_size=4, slots=2, max_target_length=16,
    max_prefill_predict_length=8)]: four pages per slot, two per prefill. *)
Definition mgrA : PageManager :=
  mkPageManager 5 4 2 16 8 4 2
    (mkPageState Jax [0; 0; 0; 0; 0] [[0; 0; 0; 0]; [0; 0; 0; 0]]
       [0; 0] [0; 0] [0; 0] [0; 0]).

(** The same with [max_prefill_predict_length=4]: one page per prefill. *)
Definition mgr1 : PageManager :=
  mkPageManager 5 4 2 16 4 4 1
    (mkPageState Jax [0; 0; 0; 0; 0] [[0; 0; 0; 0]; [0; 0; 0; 0]]
       [0; 0] [0; 0] [0; 0] [0; 0]).



(** The zeroed table of [mgrA] (and of [mgr1], [mgrP]) in NumPy arrays,
    and the state of those arrays after a prefill has marked index 0. *)
Definition zeroed5 : PageState :=
  mkPageState Numpy [0; 0; 0; 0; 0] [[0; 0; 0; 0]; [0; 0; 0; 0]]
    [0; 0] [0; 0] [0; 0] [0; 0].
Definition marked0 : PageState :=
  mkPageState Numpy [1; 0; 0; 0; 0] [[0; 0; 0; 0]; [0; 0; 0; 0]]
    [0; 0] [0; 0] [0; 0] [0; 0].

(** Slot 0 holds five tokens on pages 1 and 2. *)
Definition two_pages : PageState :=
  mkPageState Numpy [0; 1; 1; 0; 0] [[1; 2; 0; 0]; [0; 0; 0; 0]]
    [5; 0] [2; 0] [2; 0] [0; 0].
Definition two_pages_released : PageState :=
  mkPageState Numpy [0; 0; 1; 0; 0] [[0; 0; 0; 0]; [0; 0; 0; 0]]
    [0; 0] [0; 0] [0; 0] [0; 0].

(** The same table in the arrays [jnp] builds. *)
Definition two_pages_jax : PageState :=
  mkPageState Jax [0; 1; 1; 0; 0] [[1; 2; 0; 0]; [0; 0; 0; 0]]
    [5; 0] [2; 0] [2; 0] [0; 0].



(** The arrays of [zeroed5] after [reserve_prefill_slot_pages] for slot 0
    has raised, called with [true_length = -3] on [mgr1] and with
    [true_length = -16777217] on [mgrP]. *)
Definition after_negative_length : PageState :=
  mkPageState Numpy [0; 0; 0; 0; 0] [[0; 0; 0; 0]; [0; 0; 0; 0]]
    [-3; 0] [0; 0] [0; 0] [0; 0].

End Tables.

Module MoreTables.

(** Slot 1 holds nine tokens on pages 2, 3 and 4; slot 0 is empty. *)
Definition three_pages : PageState :=
  mkPageState Numpy [0; 0; 1; 1; 1] [[0; 0; 0; 0]; [2; 3; 4; 0]]
    [0; 9] [0; 3] [0; 4] [0; 0].
Definition three_pages_released : PageState :=
  mkPageState Numpy [0; 0; 0; 1; 1] [[0; 0; 0; 0]; [0; 0; 0; 0]]
    [0; 0] [0; 0] [0; 0] [0; 0].

End MoreTables.

Module SmallPool.


Definition after_negative_length : PageState :=
  mkPageState Numpy [0] [[0; 0]; [0; 0]] [-3; 0] [0; 0] [0; 0] [0; 0].

End SmallPool.

(** ** A weakest-precondition calculus for [M] *)

Lemma wp_run k {A} (m : M A) Q E st r st' :
  wpk k m Q E st -> kind st = k -> m st = (r, st') ->
  kind st' = k /\ match r with inr a => Q a st' | inl e => E e st' end.
Proof.
  unfold wpk. intros H Hk Hm. specialize (H Hk). rewrite Hm in H.
  destruct r; exact H.
Qed.

Lemma wp_mono k {A} (m : M A) (Q Q' : A -> PageState -> Prop) E E' st :
  wpk k m Q E st ->
  (forall a st', Q a st' -> Q' a st') ->
  (forall e st', E e st' -> E' e st') ->
  wpk k m Q' E' st.
Proof.
  unfold wpk. intros H HQ HE Hk. specialize (H Hk).
  destruct (m st) as [[e|a] st']; destruct H; auto.
Qed.

Lemma wp_ret k {A} (a : A) (Q : A -> PageState -> Prop) E st :
  Q a st -> wpk k (mret a) Q E st.
Proof. intros H Hk. simpl. auto. Qed.

Lemma wp_bind k {A B} (m : M A) (f : A -> M B) Q E st :
  wpk k m (fun a st' => wpk k (f a) Q E st') E st -> wpk k (m ≫= f) Q E st.
Proof.
  unfold wpk, mbind, M_mbind, M_bind. intros H Hk. specialize (H Hk).
  destruct (m st) as [[e|a] st']; destruct H as [Hk' H]; [auto | exact (H Hk')].
Qed.

Lemma wp_raise k {A} e (Q : A -> PageState -> Prop)
    (E : exn -> PageState -> Prop) st :
  E e st -> wpk k (raise e) Q E st.
Proof. intros H Hk. simpl. auto. Qed.

Lemma wp_lift k {A} (r : exn + A) (Q : A -> PageState -> Prop) E st :
  match r with inr a => Q a st | inl e => E e st end -> wpk k (lift r) Q E st.
Proof. unfold wpk, lift. intros H Hk. destruct r; auto. Qed.

Lemma wp_read k {A} (f : field A) (Q : A -> PageState -> Prop) E st :
  Q (fget f st) st -> wpk k (read f) Q E st.
Proof. intros H Hk. simpl. auto. Qed.

Lemma wp_write k {A} (f : field A) v (Q : unit -> PageState -> Prop) E st :
  Q tt (fset f v st) -> wpk k (write f v) Q E st.
Proof. intros H Hk. simpl. split; [by rewrite fset_kind | done]. Qed.

Lemma wp_snapshot k (Q : PageState -> PageState -> Prop) E st :
  Q st st -> wpk k snapshot Q E st.
Proof. intros H Hk. simpl. auto. Qed.

Lemma wp_array_type k (Q : array_kind -> PageState -> Prop) E st :
  Q k st -> wpk k array_type Q E st.
Proof. intros H Hk. simpl. rewrite Hk. auto. Qed.

Lemma wp_assert k b msg (Q : unit -> PageState -> Prop)
    (E : exn -> PageState -> Prop) st :
  (b = true -> Q tt st) -> (b = false -> E (AssertionError msg) st) ->
  wpk k (assert_ b msg) Q E st.
Proof.
  destruct b; intros H1 H2 Hk; simpl; (split; [done|]); [apply H1 | apply H2];
    reflexivity.
Qed.

Lemma getitem_inr {A} (a : list A) i x :
  getitem a i = inr x <->
  exists n, norm_index (length a) i = Some n /\ a !! n = Some x.
Proof.
  unfold getitem. destruct (norm_index (length a) i) as [n|].
  - destruct (a !! n) as [y|] eqn:Hy; split.
    + intros [= <-]. eauto.
    + intros (n' & [= <-] & Hx). congruence.
    + discriminate.
    + intros (n' & [= <-] & Hx). congruence.
  - split; [discriminate | intros (n & Hn & _); discriminate].
Qed.

Lemma norm_index_lt len i n : norm_index len i = Some n -> (n < len)%nat.
Proof.
  unfold norm_index.
  destruct ((0 <=? i) && (i <? Z.of_nat len)) eqn:H1.
  - intros [= <-]. apply andb_prop in H1 as [? ?]. lia.
  - destruct ((- Z.of_nat len <=? i) && (i <? 0)) eqn:H2; [|discriminate].
    intros [= <-]. apply andb_prop in H2 as [? ?]. lia.
Qed.

Lemma norm_index_nonneg len i n :
  0 <= i -> norm_index len i = Some n -> n = Z.to_nat i.
Proof.
  unfold norm_index. intros Hi.
  destruct ((0 <=? i) && (i <? Z.of_nat len)) eqn:H1.
  - congruence.
  - destruct ((- Z.of_nat len <=? i) && (i <? 0)) eqn:H2; [|discriminate].
    apply andb_prop in H2 as [? ?]. lia.
Qed.

Lemma norm_index_of_nat len k :
  (k < len)%nat -> norm_index len (Z.of_nat k) = Some k.
Proof.
  intros Hk. unfold norm_index.
  destruct ((0 <=? Z.of_nat k) && (Z.of_nat k <? Z.of_nat len)) eqn:H1.
  - f_equal. lia.
  - apply andb_false_iff in H1 as [?|?]; lia.
Qed.

(** *** Arrays of the store that are [numpy.ndarray]s *)

Lemma wp_getitem_at {A} (f : field (list A)) i (Q : A -> PageState -> Prop)
    (E : exn -> PageState -> Prop) st :
  (forall n x, norm_index (length (fget f st)) i = Some n ->
               fget f st !! n = Some x -> Q x st) ->
  (norm_index (length (fget f st)) i = None -> E IndexError st) ->
  wpk Numpy (getitem_at f i) Q E st.
Proof.
  intros HQ HE. unfold getitem_at.
  apply wp_bind, wp_array_type, wp_bind, wp_read, wp_lift.
  simpl. unfold getitem.
  destruct (norm_index (length (fget f st)) i) as [n|] eqn:Hn.
  - destruct (lookup_lt_is_Some_2 (fget f st) n (norm_index_lt _ _ _ Hn)) as [x Hx].
    rewrite Hx. eauto.
  - auto.
Qed.

Lemma wp_getitem_row {A} (row : list A) i (Q : A -> PageState -> Prop)
    (E : exn -> PageState -> Prop) st :
  match getitem row i with inr x => Q x st | inl e => E e st end ->
  wpk Numpy (getitem_row row i) Q E st.
Proof.
  intros H. unfold getitem_row. by apply wp_bind, wp_array_type, wp_lift.
Qed.

Lemma wp_setitem_at {A} (f : field (list A)) i v (Q : unit -> PageState -> Prop)
    (E : exn -> PageState -> Prop) st :
  (forall n, norm_index (length (fget f st)) i = Some n ->
             Q tt (fset f (<[n := v]> (fget f st)) st)) ->
  (norm_index (length (fget f st)) i = None -> E IndexError st) ->
  wpk Numpy (setitem_at f i v) Q E st.
Proof.
  intros HQ HE. unfold setitem_at.
  apply wp_bind, wp_array_type, wp_bind, wp_read, wp_bind, wp_lift.
  unfold setitem. destruct (norm_index (length (fget f st)) i) as [n|] eqn:Hn.
  - apply wp_write. auto.
  - auto.
Qed.

Lemma wp_setitems_at {A} (f : field (list A)) idx v (Q : unit -> PageState -> Prop)
    (E : exn -> PageState -> Prop) st :
  (forall a', setitems (fget f st) idx v = inr a' -> Q tt (fset f a' st)) ->
  (forall e, setitems (fget f st) idx v = inl e -> E e st) ->
  wpk Numpy (setitems_at f idx v) Q E st.
Proof.
  intros HQ HE. unfold setitems_at.
  apply wp_bind, wp_array_type, wp_bind, wp_read, wp_bind, wp_lift.
  destruct (setitems (fget f st) idx v) as [e|a'].
  - by apply HE.
  - apply wp_write. by apply HQ.
Qed.

Lemma wp_setint_at (f : field (list Z)) i z (Q : unit -> PageState -> Prop)
    (E : exn -> PageState -> Prop) st :
  (forall n, norm_index (length (fget f st)) i = Some n -> in_int32 z = true ->
             Q tt (fset f (<[n := z]> (fget f st)) st)) ->
  (norm_index (length (fget f st)) i = None -> E IndexError st) ->
  (in_int32 z = false -> E OverflowError st) ->
  wpk Numpy (setint_at f i z) Q E st.
Proof.
  intros HQ HE HO. unfold setint_at.
  apply wp_bind, wp_array_type, wp_bind, wp_read.
  destruct (norm_index (length (fget f st)) i) as [n|] eqn:Hn.
  - apply wp_bind, wp_lift. unfold to_int32.
    destruct (in_int32 z) eqn:Hz; [|auto]. apply wp_write. auto.
  - apply wp_raise. auto.
Qed.

Lemma wp_store_array_in_cell {A} (row : list A) i v
    (Q : unit -> PageState -> Prop) (E : exn -> PageState -> Prop) st :
  (norm_index (length row) i = None -> E IndexError st) ->
  (norm_index (length row) i <> None -> E TypeError st) ->
  wpk Numpy (store_array_in_cell row i v) Q E st.
Proof.
  intros HI HT. unfold store_array_in_cell. apply wp_bind, wp_array_type.
  destruct (norm_index (length row) i); apply wp_raise; auto.
Qed.

(** *** Arrays of the store that are [jax.Array]s *)

Lemma wpj_getitem_at {A} (f : field (list A)) i (Q : A -> PageState -> Prop)
    (E : exn -> PageState -> Prop) st :
  (forall x, Q x st) -> E IndexError st -> wpk Jax (getitem_at f i) Q E st.
Proof.
  intros HQ HE. unfold getitem_at.
  apply wp_bind, wp_array_type, wp_bind, wp_read, wp_lift.
  simpl. unfold getitem_jax. destruct (_ !! _); auto.
Qed.

Lemma wpj_getitem_row {A} (row : list A) i (Q : A -> PageState -> Prop)
    (E : exn -> PageState -> Prop) st :
  (forall x, Q x st) -> E IndexError st -> wpk Jax (getitem_row row i) Q E st.
Proof.
  intros HQ HE. unfold getitem_row. apply wp_bind, wp_array_type, wp_lift.
  simpl. unfold getitem_jax. destruct (_ !! _); auto.
Qed.

Lemma wpj_setitem_at {A} (f : field (list A)) i v (Q : unit -> PageState -> Prop)
    (E : exn -> PageState -> Prop) st :
  E TypeError st -> wpk Jax (setitem_at f i v) Q E st.
Proof.
  intros HE. unfold setitem_at. by apply wp_bind, wp_array_type, wp_raise.
Qed.

(** *** Loops *)

(** [for i in range (n)] with an invariant indexed by the iteration count. *)
Lemma wp_for_seq k {B} (body : Z -> B -> M B) (Inv : nat -> B -> PageState -> Prop)
    (Q : B -> PageState -> Prop) E (m : nat) :
  (forall i acc st, (i < m)%nat -> Inv i acc st ->
     wpk k (body (Z.of_nat i) acc) (fun acc' st' => Inv (S i) acc' st') E st) ->
  (forall acc st, Inv m acc st -> Q acc st) ->
  forall j i acc st, (i + j = m)%nat -> Inv i acc st ->
    wpk k (for_each (map Z.of_nat (seq i j)) acc body) Q E st.
Proof.
  intros Hbody HQ. induction j as [|j IH]; intros i acc st Hij HI.
  - simpl. apply wp_ret, HQ. replace m with i by lia. exact HI.
  - simpl. apply wp_bind.
    eapply wp_mono; [apply Hbody; [lia | exact HI] | | auto].
    intros acc' st' HI'. apply IH; [lia | exact HI'].
Qed.

Lemma wp_for_range k {B} (body : Z -> B -> M B)
    (Inv : nat -> B -> PageState -> Prop)
    (Q : B -> PageState -> Prop) E (n : Z) acc st :
  Inv 0%nat acc st ->
  (forall i acc st, (i < Z.to_nat n)%nat -> Inv i acc st ->
     wpk k (body (Z.of_nat i) acc) (fun acc' st' => Inv (S i) acc' st') E st) ->
  (forall acc st, Inv (Z.to_nat n) acc st -> Q acc st) ->
  wpk k (for_each (range n) acc body) Q E st.
Proof.
  intros HI Hbody HQ. unfold range.
  eapply wp_for_seq; eauto.
Qed.

(** A loop whose invariant does not depend on the iteration count. *)
Lemma wp_for_each k {A B} (body : A -> B -> M B) (Inv : B -> PageState -> Prop)
    (Q : B -> PageState -> Prop) E l acc st :
  Inv acc st ->
  (forall x acc st, Inv acc st -> wpk k (body x acc) Inv E st) ->
  (forall acc st, Inv acc st -> Q acc st) ->
  wpk k (for_each l acc body) Q E st.
Proof.
  intros HI Hbody HQ. revert acc st HI.
  induction l as [|x l IH]; intros acc st HI; simpl.
  - apply wp_ret; auto.
  - apply wp_bind. eapply wp_mono; [apply Hbody; exact HI | | auto].
    intros acc' st' HI'. by apply IH.
Qed.

(** *** Outcomes *)

Lemma wp_raises k {A} (m : M A) e0 s0 st :
  kind st = k ->
  wpk k m (fun _ _ => False) (fun e st' => e = e0 /\ st' = s0) st ->
  m st = (inl e0, s0).
Proof.
  unfold wpk. intros Hk H. specialize (H Hk).
  destruct (m st) as [[e|a] st']; [|by destruct H].
  by destruct H as [_ [-> ->]].
Qed.

Lemma wp_returns k {A} (m : M A) a0 s0 st :
  kind st = k ->
  wpk k m (fun a st' => a = a0 /\ st' = s0) (fun _ _ => False) st ->
  m st = (inr a0, s0).
Proof.
  unfold wpk. intros Hk H. specialize (H Hk).
  destruct (m st) as [[e|a] st']; [by destruct H|].
  by destruct H as [_ [-> ->]].
Qed.

Lemma wp_raises_with k {A} (m : M A) (E : exn -> PageState -> Prop) st :
  kind st = k ->
  wpk k m (fun _ _ => False) E st ->
  exists e st', m st = (inl e, st') /\ E e st'.
Proof.
  unfold wpk. intros Hk H. specialize (H Hk).
  destruct (m st) as [[e|a] st']; [|by destruct H]. destruct H. eauto.
Qed.

Lemma wp_returns_with k {A} (m : M A) (Q : A -> PageState -> Prop) st :
  kind st = k ->
  wpk k m Q (fun _ _ => False) st ->
  exists a st', m st = (inr a, st') /\ Q a st'.
Proof.
  unfold wpk. intros Hk H. specialize (H Hk).
  destruct (m st) as [[e|a] st']; [by destruct H|]. destruct H. eauto.
Qed.

(** ** Facts about the primitives *)

Lemma PageManager_init_inr n p s mt mp self :
  PageManager_init n p s mt mp = inr self ->
  num_pages self = n /\ page_size self = p /\ slots self = s /\
  p <> 0 /\ 0 <= n /\ 0 <= s /\
  max_pages_per_slot self = mt / p /\ 0 <= mt / p /\
  page_state self =
    mkPageState Jax (zeros n) (zeros2 s (mt / p)) (zeros s) (zeros s) (zeros s)
      (zeros s).
Proof.
  unfold PageManager_init.
  destruct (p =? 0) eqn:Hp; [done|].
  destruct (negb (mt mod p =? 0)); [done|].
  destruct (negb (mp mod p =? 0)); [done|].
  destruct ((n <? 0) || (s <? 0) || (mt / p <? 0)) eqn:Hneg; [done|].
  intros [= <-]. simpl.
  apply orb_false_elim in Hneg as [Hneg ?]. apply orb_false_elim in Hneg as [? ?].
  repeat split; lia.
Qed.

Lemma setitems_single {A} (a : list A) i v :
  setitems a [i] (fun _ => v) =
  match norm_index (length a) i with
  | Some n => inr (<[n := v]> a)
  | None => inl IndexError
  end.
Proof.
  simpl. destruct (norm_index (length a) i); [|reflexivity].
  by rewrite list_insert_alter.
Qed.

Lemma nonzero_from_hd i c :
  nonzero_from i c = [] /\ Forall (fun b => b = false) c \/
  exists k rest, nonzero_from i c = Z.of_nat (i + k) :: rest /\
                 c !! k = Some true /\
                 forall j, (j < k)%nat -> c !! j = Some false.
Proof.
  revert i. induction c as [|b c IH]; intros i; simpl.
  - left. split; [done | constructor].
  - destruct b.
    + right. exists 0%nat, (nonzero_from (S i) c). rewrite Nat.add_0_r.
      split; [done|]. split; [done|]. intros j Hj. lia.
    + destruct (IH (S i)) as [[-> Hf]|(k & rest & -> & Hk & Hlt)].
      * left. split; [done | by constructor].
      * right. exists (S k), rest. split; [f_equal; f_equal; lia|].
        split; [done|]. intros [|j] Hj; simpl; [done | apply Hlt; lia].
Qed.

Lemma first_free_spec status :
  exists k : nat, first_free status = [Z.of_nat k] /\
    (forall j, (j < k)%nat -> exists x, status !! S j = Some x /\ x <> 0) /\
    (k = 0%nat \/ status !! S k = Some 0).
Proof.
  unfold first_free, where_size.
  destruct (nonzero_from_hd 0 (map (fun x => x =? 0) (drop 1 status)))
    as [[-> _]|(k & rest & -> & Hk & Hlt)].
  - exists 0%nat. split; [done|]. split; [intros j Hj; lia | by left].
  - exists k. split; [done|]. split.
    + intros j Hj. specialize (Hlt j Hj).
      rewrite list_lookup_fmap, lookup_drop in Hlt. simpl in Hlt.
      destruct (status !! S j) as [x|]; [|done]. simpl in Hlt.
      exists x. split; [done|]. injection Hlt as Hx. lia.
    + right. rewrite list_lookup_fmap, lookup_drop in Hk. simpl in Hk.
      destruct (status !! S k) as [x|]; [|done]. simpl in Hk.
      injection Hk as Hx. f_equal. lia.
Qed.

Lemma wp_mark_first_free (Q : list Z -> PageState -> Prop)
    (E : exn -> PageState -> Prop) st :
  (forall k : nat, first_free (page_status st) = [Z.of_nat k] ->
     (k < length (page_status st))%nat ->
     Q [Z.of_nat k] (fset f_page_status (<[k := 1]> (page_status st)) st)) ->
  (forall k : nat, first_free (page_status st) = [Z.of_nat k] ->
     (length (page_status st) <= k)%nat -> E IndexError st) ->
  wpk Numpy mark_first_free Q E st.
Proof.
  intros HQ HE. unfold mark_first_free. apply wp_bind, wp_read. simpl.
  destruct (first_free_spec (page_status st)) as (k & Hk & _).
  specialize (HQ k Hk). specialize (HE k Hk). rewrite Hk.
  unfold setitems_at.
  apply wp_bind, wp_bind, wp_array_type, wp_bind, wp_read, wp_bind, wp_lift.
  rewrite setitems_single. simpl.
  destruct (norm_index (length (page_status st)) (Z.of_nat k)) as [n|] eqn:Hn.
  - pose proof (norm_index_lt _ _ _ Hn) as Hlt.
    apply norm_index_nonneg in Hn; [|lia]. rewrite Nat2Z.id in Hn. subst n.
    apply wp_write, wp_ret. auto.
  - apply HE. destruct (decide (k < length (page_status st))%nat) as [Hlt|]; [|lia].
    rewrite (norm_index_of_nat _ _ Hlt) in Hn. done.
Qed.

Lemma ceil_div_0 b : ceil_div 0 b = 0.
Proof. unfold ceil_div. simpl. by rewrite Zdiv_0_l. Qed.

Lemma ceil_div_spec a b q :
  0 < b -> (ceil_div a b = q <-> (q - 1) * b < a <= q * b).
Proof.
  intros Hb. unfold ceil_div.
  pose proof (Z.div_mod (- a) b ltac:(lia)) as Hdm.
  pose proof (Z.mod_pos_bound (- a) b Hb) as Hm.
  split.
  - intros <-. nia.
  - intros H.
    assert ((- a) / b = - q) as ->; [|lia].
    symmetry. apply (Z.div_unique_pos (- a) b (- q) (- a + q * b)); lia.
Qed.

Lemma range_pos n :
  0 < n -> range n = 0 :: map Z.of_nat (seq 1 (Z.to_nat n - 1)).
Proof.
  intros Hn. unfold range.
  replace (Z.to_nat n) with (S (Z.to_nat n - 1)) at 1 by lia. reflexivity.
Qed.

Lemma range_nonpos n : n <= 0 -> range n = [].
Proof. intros Hn. unfold range. by replace (Z.to_nat n) with 0%nat by lia. Qed.


Lemma count_nonzero_nonneg a : 0 <= count_nonzero a.
Proof. induction a as [|x a IH]; simpl; [done|]. destruct (x =? 0); lia. Qed.


(** ** What [release_slot_pages] does to [numpy.ndarray]s *)

Lemma valid_index_true {A} (a : list A) i :
  valid_index a i = true <-> is_Some (norm_index (length a) i).
Proof.
  unfold valid_index. destruct (norm_index _ _); split; intros H; try done.
Qed.

Lemma getitem_of_nat {A} (a : list A) (i : nat) :
  getitem a (Z.of_nat i) =
  match a !! i with Some x => inr x | None => inl IndexError end.
Proof.
  unfold getitem. destruct (a !! i) as [x|] eqn:Hx.
  - rewrite (norm_index_of_nat _ _ (lookup_lt_Some _ _ _ Hx)). by rewrite Hx.
  - destruct (norm_index (length a) (Z.of_nat i)) as [n|] eqn:Hn; [|done].
    apply norm_index_nonneg in Hn; [|lia]. rewrite Nat2Z.id in Hn. subst n.
    by rewrite Hx.
Qed.

Lemma getitem_norm {A} (a : list A) i n x :
  norm_index (length a) i = Some n -> a !! n = Some x -> getitem a i = inr x.
Proof. intros Hn Hx. unfold getitem. by rewrite Hn, Hx. Qed.

Lemma getitem_norm_None {A} (a : list A) i :
  norm_index (length a) i = None -> getitem a i = inl IndexError.
Proof. intros Hn. unfold getitem. by rewrite Hn. Qed.

Lemma insert_zero_lookup (a : list Z) n p :
  a !! p = Some 0 -> <[n := 0]> a !! p = Some 0.
Proof.
  intros Hp. destruct (decide (n = p)) as [->|Hne].
  - apply list_lookup_insert_eq. by eapply lookup_lt_Some.
  - by rewrite list_lookup_insert_ne.
Qed.

Lemma zeros_kept_refl a : zeros_kept a a.
Proof. split; auto. Qed.

Lemma release_ready_elim slot st :
  release_ready slot st = true ->
  is_Some (norm_index (length (seq_lengths st)) slot) /\
  is_Some (norm_index (length (seq_page_indices st)) slot) /\
  is_Some (norm_index (length (seq_page_slice_indices st)) slot) /\
  exists n, getitem (seq_num_pages st) slot = inr n /\
    (0 < n -> exists row v k,
       getitem (seq_page_idx_mappings st) slot = inr row /\
       n <= Z.of_nat (length row) /\ row !! 0%nat = Some v /\
       norm_index (length (page_status st)) v = Some k).
Proof.
  unfold release_ready. intros H.
  apply andb_prop in H as [H Hn]. apply andb_prop in H as [H H3].
  apply andb_prop in H as [H1 H2].
  apply valid_index_true in H1, H2, H3. do 3 (split; [done|]).
  destruct (getitem (seq_num_pages st) slot) as [|n]; [done|].
  exists n. split; [done|]. intros Hpos.
  destruct (0 <? n) eqn:Hlt; [|lia].
  destruct (getitem (seq_page_idx_mappings st) slot) as [|row]; [done|].
  apply andb_prop in Hn as [Hle Hv]. destruct (row !! 0%nat) as [v|] eqn:Hv0; [|done].
  apply valid_index_true in Hv as [k Hk]. exists row, v, k.
  repeat split; auto. lia.
Qed.

Lemma not_true_false (b : bool) : (b = true -> False) -> b = false.
Proof. destruct b; intros H; [by destruct H | done]. Qed.

Lemma getitem_inj_norm {A} (a : list A) i n x y :
  norm_index (length a) i = Some n -> a !! n = Some x -> getitem a i = inr y -> y = x.
Proof. intros Hn Hx. unfold getitem. rewrite Hn, Hx. congruence. Qed.

Lemma getitem_insert_eq {A} (a : list A) i n x :
  norm_index (length a) i = Some n -> getitem (<[n := x]> a) i = inr x.
Proof.
  intros Hn. unfold getitem. rewrite length_insert, Hn.
  rewrite list_lookup_insert_eq; [done|]. by eapply norm_index_lt.
Qed.

Lemma release_body_inv slot st0 n i st :
  getitem (seq_num_pages st0) slot = inr n ->
  (i < Z.to_nat n)%nat ->
  release_inv slot st0 i st ->
  wpk Numpy (row ← getitem_at f_seq_page_idx_mappings slot;
      page_idx ← getitem_row row (Z.of_nat i);
      setitem_at f_page_status page_idx 0;;
      row ← getitem_at f_seq_page_idx_mappings slot;
      setitem_at f_seq_page_idx_mappings slot (replicate (length row) 0))
     (fun _ st' => release_inv slot st0 (S i) st')
     (fun _ _ => release_ready slot st0 = false) st.
Proof.
  intros Hn Hi [Hl Hnp Hpi Hsl [Hlen Hz] Hrows Hfirst Hlater].
  apply wp_bind, wp_getitem_at; simpl.
  - intros sm row Hsm Hrow.
    (* what is known about the row read in this pass *)
    assert (exists row0,
              (release_ready slot st0 = true ->
                 getitem (seq_page_idx_mappings st0) slot = inr row0 /\
                 n <= Z.of_nat (length row0)) /\
              length row = length row0 /\
              (i = 0%nat -> row = row0 /\
                 getitem (seq_page_idx_mappings st0) slot = inr row0) /\
              ((0 < i)%nat -> row = replicate (length row0) 0)) as (row0 & Hrdy & Hrl & Hr0 & Hr1).
    { destruct (decide (i = 0%nat)) as [->|Hne].
      - exists row. rewrite Hfirst in Hsm, Hrow by done.
        pose proof (getitem_norm _ _ _ _ Hsm Hrow) as Hg.
        split; [|split; [done|split; [done|lia]]].
        intros HR. apply release_ready_elim in HR as (_ & _ & _ & n' & Hn' & HR).
        assert (n' = n) as -> by congruence.
        destruct (HR ltac:(lia)) as (row' & v & k & Hg' & Hle & _).
        split; [done|]. congruence.
      - destruct (Hlater ltac:(lia)) as (row0 & v & k & Hg0 & Hg & Hv & Hk & Hpk).
        exists row0. pose proof (getitem_inj_norm _ _ _ _ _ Hsm Hrow Hg) as Hrep.
        split; [|split; [by rewrite <- Hrep, length_replicate|split; [lia|done]]].
        intros HR. apply release_ready_elim in HR as (_ & _ & _ & n' & Hn' & HR).
        assert (n' = n) as -> by congruence.
        destruct (HR ltac:(lia)) as (row' & v' & k' & Hg' & Hle & _).
        split; [done|]. congruence. }
    apply wp_bind, wp_getitem_row. rewrite getitem_of_nat.
    destruct (row !! i) as [page_idx|] eqn:Hpidx.
    + apply wp_bind, wp_setitem_at; simpl.
      * intros p Hp.
        apply wp_bind, wp_getitem_at; simpl; [|congruence].
        intros sm' row' Hsm' Hrow'.
        assert (sm' = sm) as -> by congruence.
        assert (row' = row) as -> by congruence.
        apply wp_setitem_at; simpl; [|congruence].
        intros sm'' Hsm''. assert (sm'' = sm) as -> by congruence.
        constructor; simpl; auto.
        -- split; [by rewrite length_insert|]. intros q Hq.
           apply insert_zero_lookup. auto.
        -- by rewrite length_insert.
        -- lia.
        -- intros _. rewrite Hrl.
           destruct (decide (i = 0%nat)) as [->|Hne].
           ++ destruct (Hr0 eq_refl) as [-> Hg0].
              exists row0, page_idx, p. rewrite <- Hlen.
              split; [done|]. split; [by apply getitem_insert_eq|].
              split; [done|]. split; [done|].
              apply list_lookup_insert_eq. by eapply norm_index_lt.
           ++ destruct (Hlater ltac:(lia)) as (row1 & v & k & Hg0 & Hg & Hv & Hk & Hpk).
              pose proof (getitem_inj_norm _ _ _ _ _ Hsm Hrow Hg) as Hrep.
              assert (length row1 = length row0) as Hl1
                by (rewrite <- Hrl, <- Hrep; by rewrite length_replicate).
              exists row1, v, k. rewrite Hl1.
              split; [done|]. split; [by apply getitem_insert_eq|].
              split; [done|]. split; [done|].
              by apply insert_zero_lookup.
      * intros Hp. apply not_true_false. intros HR.
        destruct (decide (i = 0%nat)) as [->|Hne].
        -- destruct (Hr0 eq_refl) as [-> Hg0].
           apply release_ready_elim in HR as (_ & _ & _ & n' & Hn' & HR).
           assert (n' = n) as -> by congruence.
           destruct (HR ltac:(lia)) as (row' & v & k & Hg' & Hle & Hv & Hk).
           assert (row' = row0) as -> by congruence.
           rewrite Hlen in Hp. congruence.
        -- destruct (Hlater ltac:(lia)) as (row1 & v & k & Hg0 & Hg & Hv & Hk & Hpk).
           rewrite (Hr1 ltac:(lia)) in Hpidx.
           apply lookup_replicate in Hpidx as [-> _].
           pose proof (lookup_lt_Some _ _ _ Hpk) as Hlt.
           rewrite (norm_index_of_nat _ 0%nat) in Hp; [done | lia].
    + apply not_true_false. intros HR. destruct (Hrdy HR) as [_ Hle].
      apply lookup_ge_None in Hpidx. lia.
  - intros Hsm. apply not_true_false. intros HR.
    apply release_ready_elim in HR as (_ & _ & _ & n' & Hn' & HR).
    assert (n' = n) as -> by congruence.
    destruct (HR ltac:(lia)) as (row' & v & k & Hg' & _).
    rewrite Hrows in Hsm. by rewrite (getitem_norm_None _ _ Hsm) in Hg'.
Qed.

Lemma release_spec self slot st0 :
  wpk Numpy (release_slot_pages self slot)
     (fun r st' => r = st' /\ release_post slot st0 st')
     (fun _ _ => release_ready slot st0 = false) st0.
Proof.
  unfold release_slot_pages. apply wp_bind, wp_getitem_at.
  - simpl. intros sn n Hsn Hn.
    pose proof (getitem_norm _ _ _ _ Hsn Hn) as Hgn.
    apply wp_bind.
    apply wp_for_range with (Inv := fun i _ st => release_inv slot st0 i st).
    + constructor; auto; [apply zeros_kept_refl | lia].
    + intros i u st Hi HI. by apply (release_body_inv slot st0 n).
    + intros _ st [Hl Hnp Hpi Hsl Hz Hrows Hfirst Hlater].
      assert (forall st' : PageState, page_status st' = page_status st ->
                release_post slot st0 st') as Hpost.
      { intros st' Hst'. split; rewrite Hst'; [done|].
        intros n' row v k Hn' Hpos Hrow Hv Hk.
        assert (n' = n) as -> by congruence.
        destruct (Hlater ltac:(lia)) as (row1 & v1 & k1 & Hg0 & _ & Hv1 & Hk1 & Hpk).
        congruence. }
      apply wp_bind, wp_setitem_at; simpl.
      2:{ intros Hx. apply not_true_false. intros HR.
          apply release_ready_elim in HR as ([x Hx'] & _). congruence. }
      intros n1 _.
      apply wp_bind, wp_setitem_at; simpl; [|congruence].
      intros n2 _.
      apply wp_bind, wp_setitem_at; simpl.
      2:{ intros Hx. apply not_true_false. intros HR.
          apply release_ready_elim in HR as (_ & [x Hx'] & _). congruence. }
      intros n3 _.
      apply wp_bind, wp_setitem_at; simpl.
      2:{ intros Hx. apply not_true_false. intros HR.
          apply release_ready_elim in HR as (_ & _ & [x Hx'] & _). congruence. }
      intros n4 _.
      apply wp_snapshot. split; [done|]. by apply Hpost.
  - simpl. intros Hsn. apply not_true_false. intros HR.
    apply release_ready_elim in HR as (_ & _ & _ & n' & Hn' & _).
    by rewrite (getitem_norm_None _ _ Hsn) in Hn'.
Qed.

Lemma release_frame_body slot st0 i st :
  release_frame_inv slot st0 i st ->
  wpk Numpy (row ← getitem_at f_seq_page_idx_mappings slot;
      page_idx ← getitem_row row (Z.of_nat i);
      setitem_at f_page_status page_idx 0;;
      row ← getitem_at f_seq_page_idx_mappings slot;
      setitem_at f_seq_page_idx_mappings slot (replicate (length row) 0))
     (fun _ st' => release_frame_inv slot st0 (S i) st')
     (fun _ _ => True) st.
Proof.
  intros [Hl Hnp Hpi Hsl Hlen Hst Hrl Hrows Hfirst Hlater].
  apply wp_bind, wp_getitem_at; simpl; [|done].
  intros sm row Hsm Hrow.
  apply wp_bind, wp_getitem_row. rewrite getitem_of_nat.
  destruct (row !! i) as [page_idx|] eqn:Hpidx; [|done].
  apply wp_bind, wp_setitem_at; simpl; [|done].
  intros q Hq.
  apply wp_bind, wp_getitem_at; simpl; [|done].
  intros sm' row' Hsm' Hrow'. assert (sm' = sm) as -> by congruence.
  apply wp_setitem_at; simpl; [|done].
  intros sm'' Hsm''. assert (sm'' = sm) as -> by congruence.
  constructor; simpl; auto.
  - by rewrite length_insert.
  - intros p Hp0 Hpk. rewrite <- (Hst p Hp0 Hpk).
    apply list_lookup_insert_ne.
    destruct (decide (i = 0%nat)) as [->|Hne].
    + rewrite Hfirst in Hsm, Hrow by done.
      apply (Hpk row page_idx q).
      * by eapply getitem_norm.
      * done.
      * by rewrite <- Hlen.
    + destruct (Hlater ltac:(lia)) as (len & Hg).
      pose proof (getitem_inj_norm _ _ _ _ _ Hsm Hrow Hg) as Hrep. subst row.
      apply lookup_replicate in Hpidx as [-> _].
      apply norm_index_nonneg in Hq; [|lia]. simpl in Hq. lia.
  - by rewrite length_insert.
  - intros sm0 s Hsm0 Hne. rewrite Hrl in Hsm.
    assert (sm0 = sm) as -> by congruence.
    rewrite list_lookup_insert_ne by done. by apply (Hrows sm).
  - lia.
  - intros _. exists (length row'). by apply getitem_insert_eq.
Qed.

Lemma release_frame_spec self slot st0 :
  wpk Numpy (release_slot_pages self slot)
     (fun r st' => r = st' /\ release_frame slot st0 st') (fun _ _ => True) st0.
Proof.
  unfold release_slot_pages. apply wp_bind, wp_getitem_at; [|done].
  simpl. intros sn n Hsn Hn. apply wp_bind.
  apply wp_for_range with (Inv := fun i _ st => release_frame_inv slot st0 i st).
  - constructor; auto. lia.
  - intros i u st _ HI. by apply release_frame_body.
  - intros _ st [Hl Hnp Hpi Hsl Hlen Hst Hrl Hrows Hfirst Hlater].
    apply wp_bind, wp_setitem_at; simpl; [|done]. intros n1 Hn1.
    apply wp_bind, wp_setitem_at; simpl; [|done]. intros n2 Hn2.
    apply wp_bind, wp_setitem_at; simpl; [|done]. intros n3 Hn3.
    apply wp_bind, wp_setitem_at; simpl; [|done]. intros n4 Hn4.
    apply wp_snapshot. split; [done|]. unfold release_frame. simpl.
    rewrite Hl in Hn1 |- *. rewrite Hnp in Hn2 |- *.
    rewrite Hpi in Hn3 |- *. rewrite Hsl in Hn4 |- *.
    repeat split; try (intros; f_equal; congruence); auto.
Qed.

Lemma setitems_length {A} (a : list A) idx v a' :
  setitems a idx v = inr a' -> length a' = length a.
Proof.
  revert a'. induction idx as [|i idx IH]; simpl; intros a'.
  - by intros [= <-].
  - destruct (norm_index (length a) i) as [n|]; [|discriminate].
    destruct (setitems a idx v) as [e|a'']; [discriminate|].
    intros [= <-]. rewrite length_alter. by apply IH.
Qed.

Lemma table_shape_row self st sm row :
  table_shape self st ->
  seq_page_idx_mappings st !! sm = Some row ->
  length row = Z.to_nat (max_pages_per_slot self).
Proof.
  intros (_ & _ & Hrows & _) Hrow. rewrite Forall_lookup in Hrows. eauto.
Qed.

Ltac shape_solve :=
  cbv beta iota;
  match goal with
  | H : table_shape _ _ |- table_shape _ _ =>
      let H1 := fresh in let H2 := fresh in let H3 := fresh in
      let H4 := fresh in let H5 := fresh in let H6 := fresh in let H7 := fresh in
      pose proof H as (H1 & H2 & H3 & H4 & H5 & H6 & H7);
      unfold table_shape; simpl;
      rewrite ?length_insert, ?length_map;
      repeat split; try done
  end.

Lemma release_keeps_shape self slot st0 :
  table_shape self st0 ->
  wpk Numpy (release_slot_pages self slot)
     (fun r st' => r = st' /\ table_shape self st')
     (fun _ st' => table_shape self st') st0.
Proof.
  intros HI. unfold release_slot_pages.
  apply wp_bind, wp_getitem_at; [|done]. intros sn n _ _.
  apply wp_bind.
  apply wp_for_each with (Inv := fun _ st => table_shape self st); [done| |].
  - clear. intros i u st HI.
    apply wp_bind, wp_getitem_at; [|done]. intros sm row _ _.
    apply wp_bind, wp_getitem_row. destruct (getitem row i) as [|page_idx]; [done|].
    apply wp_bind, wp_setitem_at; [|done]. intros p _.
    apply wp_bind, wp_getitem_at; [|intros _; by shape_solve]. simpl. intros sm' row' _ Hrow'.
    apply wp_setitem_at; [|intros _; by shape_solve]. simpl. intros sm'' _.
    shape_solve. apply Forall_insert; [done|].
    rewrite length_replicate. by eapply table_shape_row.
  - clear. intros _ st HI.
    apply wp_bind, wp_setitem_at; [|done]. intros ? _.
    apply wp_bind, wp_setitem_at; [|intros _; by shape_solve]. intros ? _.
    apply wp_bind, wp_setitem_at; [|intros _; by shape_solve]. intros ? _.
    apply wp_bind, wp_setitem_at; [|intros _; by shape_solve]. intros ? _.
    apply wp_snapshot. split; [done|]. by shape_solve.
Qed.

Lemma release_bookkeeping self slot st0 :
  wpk Numpy (release_slot_pages self slot)
     (fun r st' => r = st' /\ slot_reset slot st') (fun _ _ => True) st0.
Proof.
  unfold release_slot_pages.
  apply wp_bind, wp_getitem_at; [|done]. intros sn n _ _.
  apply wp_bind.
  apply wp_for_each with (Inv := fun _ _ => True); [done| |].
  - clear. intros i u st _.
    apply wp_bind, wp_getitem_at; [|done]. intros sm row _ _.
    apply wp_bind, wp_getitem_row. destruct (getitem row i) as [|page_idx]; [done|].
    apply wp_bind, wp_setitem_at; [|done]. intros p _.
    apply wp_bind, wp_getitem_at; [|done]. intros sm' row' _ _.
    apply wp_setitem_at; [|done]. done.
  - clear. intros _ st _.
    apply wp_bind, wp_setitem_at; [|done]. intros n1 Hn1.
    apply wp_bind, wp_setitem_at; [|done]. intros n2 Hn2.
    apply wp_bind, wp_setitem_at; [|done]. intros n3 Hn3.
    apply wp_bind, wp_setitem_at; [|done]. intros n4 Hn4.
    apply wp_snapshot. split; [done|]. simpl in *.
    repeat split; simpl; by apply getitem_insert_eq.
Qed.

Lemma getitem_insert_id {A} (a : list A) i n x :
  getitem a i = inr x -> norm_index (length a) i = Some n -> <[n := x]> a = a.
Proof.
  intros Hg Hn. apply list_insert_id.
  apply getitem_inr in Hg as (n' & Hn' & Hx). congruence.
Qed.

Lemma release_reset_slot_noop self slot T :
  kind T = Numpy ->
  slot_reset slot T -> release_slot_pages self slot T = (inr T, T).
Proof.
  intros Hk (Hl & Hn & Hp & Hs). destruct T as [k ps maps lens nps pis sls].
  simpl in *. subst k. apply (wp_returns Numpy); [done|].
  unfold release_slot_pages.
  apply wp_bind, wp_getitem_at; simpl.
  2:{ intros Hx. by rewrite (getitem_norm_None _ _ Hx) in Hn. }
  intros sn n Hsn Hnn.
  assert (n = 0) as -> by (symmetry; by eapply getitem_inj_norm).
  apply wp_bind. change (range 0) with (@nil Z). simpl for_each. apply wp_ret.
  apply wp_bind, wp_setitem_at; simpl.
  2:{ intros Hx. by rewrite (getitem_norm_None _ _ Hx) in Hl. }
  intros n1 Hn1. rewrite (getitem_insert_id _ _ _ _ Hl Hn1).
  apply wp_bind, wp_setitem_at; simpl.
  2:{ intros Hx. by rewrite (getitem_norm_None _ _ Hx) in Hn. }
  intros n2 Hn2. rewrite (getitem_insert_id _ _ _ _ Hn Hn2).
  apply wp_bind, wp_setitem_at; simpl.
  2:{ intros Hx. by rewrite (getitem_norm_None _ _ Hx) in Hp. }
  intros n3 Hn3. rewrite (getitem_insert_id _ _ _ _ Hp Hn3).
  apply wp_bind, wp_setitem_at; simpl.
  2:{ intros Hx. by rewrite (getitem_norm_None _ _ Hx) in Hs. }
  intros n4 Hn4. rewrite (getitem_insert_id _ _ _ _ Hs Hn4).
  by apply wp_snapshot.
Qed.

Lemma only_cleared_insert a0 a n :
  only_cleared a0 a -> (n < length a)%nat -> only_cleared a0 (<[n := 0]> a).
Proof.
  intros [Hl Hc] Hn. split; [by rewrite length_insert|].
  intros p. destruct (decide (n = p)) as [->|Hne].
  - right. by apply list_lookup_insert_eq.
  - rewrite list_lookup_insert_ne by done. apply Hc.
Qed.

Lemma release_only_clears self slot st0 :
  wpk Numpy (release_slot_pages self slot)
     (fun _ st' => only_cleared (page_status st0) (page_status st'))
     (fun _ st' => only_cleared (page_status st0) (page_status st')) st0.
Proof.
  assert (only_cleared (page_status st0) (page_status st0)) as HI
    by (split; [done | by left]).
  unfold release_slot_pages.
  apply wp_bind, wp_getitem_at; [|done]. intros sn n _ _.
  apply wp_bind.
  apply wp_for_each with
    (Inv := fun _ st => only_cleared (page_status st0) (page_status st)); [done| |].
  - intros i u st HI1.
    apply wp_bind, wp_getitem_at; [|done]. intros sm row _ _.
    apply wp_bind, wp_getitem_row. destruct (getitem row i) as [|page_idx]; [done|].
    apply wp_bind, wp_setitem_at; [|done]. simpl. intros p Hp.
    pose proof (only_cleared_insert _ _ p HI1 (norm_index_lt _ _ _ Hp)) as HI2.
    apply wp_bind, wp_getitem_at; [|done]. intros sm' row' _ _.
    apply wp_setitem_at; done.
  - intros _ st HI1.
    apply wp_bind, wp_setitem_at; [|done]. intros ? _.
    apply wp_bind, wp_setitem_at; [|done]. intros ? _.
    apply wp_bind, wp_setitem_at; [|done]. intros ? _.
    apply wp_bind, wp_setitem_at; [|done]. intros ? _.
    by apply wp_snapshot.
Qed.

(** ** Tables of [jax.Array]s: nothing is ever written *)

Lemma getitem_jax_elem {A} (a : list A) i x : getitem_jax a i = inr x -> x ∈ a.
Proof.
  unfold getitem_jax. destruct (a !! _) eqn:H; [|done].
  intros [= <-]. by eapply list_elem_of_lookup_2.
Qed.

Lemma getitem_jax_nonempty {A} (a : list A) i e :
  getitem_jax a i = inl e -> e = IndexError /\ a = [].
Proof.
  unfold getitem_jax. destruct (a !! _) eqn:H; [done|].
  intros [= <-]. split; [done|]. apply lookup_ge_None in H.
  destruct a; [done|]. unfold clamp_index in H. simpl length in H. lia.
Qed.

Lemma wpj_getitem_at_elem {A} (f : field (list A)) i (Q : A -> PageState -> Prop)
    (E : exn -> PageState -> Prop) st :
  (forall x, x ∈ fget f st -> Q x st) ->
  (fget f st = [] -> E IndexError st) ->
  wpk Jax (getitem_at f i) Q E st.
Proof.
  intros HQ HE. unfold getitem_at.
  apply wp_bind, wp_array_type, wp_bind, wp_read, wp_lift. simpl.
  destruct (getitem_jax (fget f st) i) as [e|x] eqn:Hg.
  - apply getitem_jax_nonempty in Hg as [-> Hnil]. auto.
  - apply HQ. by eapply getitem_jax_elem.
Qed.

Lemma wpj_getitem_row_elem {A} (row : list A) i (Q : A -> PageState -> Prop)
    (E : exn -> PageState -> Prop) st :
  (forall x, x ∈ row -> Q x st) ->
  (row = [] -> E IndexError st) ->
  wpk Jax (getitem_row row i) Q E st.
Proof.
  intros HQ HE. unfold getitem_row. apply wp_bind, wp_array_type, wp_lift. simpl.
  destruct (getitem_jax row i) as [e|x] eqn:Hg.
  - apply getitem_jax_nonempty in Hg as [-> Hnil]. auto.
  - apply HQ. by eapply getitem_jax_elem.
Qed.

(** On [jax.Array]s a release raises at its first assignment, whatever the
    slot; [IndexError] is possible only on an array without entries. *)
Lemma release_on_jax self slot T :
  wpk Jax (release_slot_pages self slot)
    (fun _ _ => False)
    (fun e st =>
       st = T /\
       (e = TypeError \/
        e = IndexError /\
        (seq_num_pages T = [] \/ seq_page_idx_mappings T = [] \/
         [] ∈ seq_page_idx_mappings T))) T.
Proof.
  unfold release_slot_pages.
  apply wp_bind, wpj_getitem_at_elem; [|by auto]. intros n _.
  apply wp_bind.
  apply wp_for_each with (Inv := fun _ st => st = T); [done| |].
  - intros i u st ->.
    apply wp_bind, wpj_getitem_at_elem; [|by auto 6]. simpl. intros row Hrow.
    apply wp_bind, wpj_getitem_row_elem.
    + intros page_idx _. apply wp_bind, wpj_setitem_at. auto.
    + intros ->. auto 6.
  - intros _ st ->. apply wp_bind, wpj_setitem_at. auto.
Qed.

Lemma release_jax_unchanged self slot T :
  kind T = Jax -> exists e, release_slot_pages self slot T = (inl e, T).
Proof.
  intros Hk.
  destruct (wp_raises_with Jax _ _ _ Hk (release_on_jax self slot T))
    as (e & st & Hrun & -> & _).
  eauto.
Qed.

Lemma prefill_jax_unchanged self slot true_length T :
  kind T = Jax ->
  exists e, reserve_prefill_slot_pages self slot true_length T = (inl e, T).
Proof.
  intros Hk. destruct (release_jax_unchanged self slot T Hk) as [e He].
  exists e. unfold reserve_prefill_slot_pages, mbind, M_mbind, M_bind.
  by rewrite He.
Qed.

(** ** The decode step *)

Lemma decode_raises self T :
  reserve_decode_step_pages self T = (inl TypeError, T).
Proof. reflexivity. Qed.

(** ** What [reserve_prefill_slot_pages] does to [numpy.ndarray]s *)

Lemma first_free_lt status k :
  first_free status = [Z.of_nat k] -> (0 < length status)%nat ->
  (k < length status)%nat.
Proof.
  intros Hk Hpos. destruct (first_free_spec status) as (k' & Hk' & _ & [->|Hz]).
  - rewrite Hk in Hk'. injection Hk' as Hk'. lia.
  - rewrite Hk in Hk'. injection Hk' as Hk'.
    apply lookup_lt_Some in Hz. lia.
Qed.

Lemma init_table_shape n p s mt mp self :
  PageManager_init n p s mt mp = inr self -> table_shape self (page_state self).
Proof.
  intros Hinit.
  apply PageManager_init_inr in Hinit
    as (Hn & _ & Hs & _ & _ & _ & Hm & _ & ->).
  unfold table_shape, zeros, zeros2. simpl. rewrite Hn, Hs, Hm.
  rewrite !length_replicate.
  repeat split; try done. apply Forall_replicate.
  unfold zeros. by rewrite length_replicate.
Qed.

Lemma count_nonzero_all_zero a : all_zero a -> count_nonzero a = 0.
Proof.
  induction 1 as [|x a Hx _ IH]; [reflexivity|].
  simpl. rewrite Hx. simpl. exact IH.
Qed.


Lemma release_any self slot T :
  wpk Numpy (release_slot_pages self slot) (fun _ _ => True) (fun _ _ => True) T.
Proof. eapply wp_mono; [apply release_bookkeeping | done | done]. Qed.

(** A pass of the allocation loop never completes: the store into the
    mapping row raises. *)
Lemma prefill_never_returns_np self slot true_length T :
  wpk Numpy (reserve_prefill_slot_pages self slot true_length)
    (fun _ _ => False) (fun _ _ => True) T.
Proof.
  unfold reserve_prefill_slot_pages. apply wp_bind.
  eapply wp_mono; [apply release_any | | done].
  intros _ st _. unfold reserve_prefill_after_release.
  apply wp_bind, wp_lift. destruct (prefill_num_pages _ _) as [|n]; [done|].
  apply wp_bind.
  apply wp_for_each with (Inv := fun acc _ => acc = None); [done| |].
  - intros i acc st1 _. apply wp_bind. unfold assert_free_page.
    apply wp_bind, wp_read. apply wp_assert; [|done]. intros _.
    apply wp_bind, wp_mark_first_free; [|done]. intros k _ _.
    apply wp_bind, wp_getitem_at; [|done]. intros sm row _ _.
    apply wp_bind, wp_store_array_in_cell; done.
  - intros acc st1 ->.
    apply wp_bind, wp_setint_at; [|done|done]. intros n1 _ _.
    apply wp_bind, wp_setitem_at; [|done]. intros n2 _.
    apply wp_bind, wp_raise. done.
Qed.

Lemma prefill_never_returns self slot true_length T r st :
  reserve_prefill_slot_pages self slot true_length T = (r, st) ->
  exists e, r = inl e.
Proof.
  intros Hrun. destruct (kind T) eqn:Hk.
  - destruct (prefill_jax_unchanged self slot true_length T Hk) as [e He].
    exists e. congruence.
  - pose proof (wp_run Numpy _ _ _ _ _ _
                  (prefill_never_returns_np self slot true_length T) Hk Hrun)
      as [_ H].
    destruct r as [e|T']; [eauto | done].
Qed.

(** *** A prefill that needs at least one page *)


Lemma prefill_marks_spec self slot true_length n st k row :
  prefill_num_pages true_length (page_size self) = inr n ->
  1 <= n ->
  count_nonzero (drop 1 (page_status st)) <> num_pages self - 1 ->
  page_status st <> [] ->
  first_free (page_status st) = [Z.of_nat k] ->
  getitem (seq_page_idx_mappings st) slot = inr row ->
  row <> [] ->
  wpk Numpy (reserve_prefill_after_release self slot true_length)
    (fun _ _ => False)
    (fun e st' =>
       e = TypeError /\
       st' = fset f_page_status (<[k := 1]> (page_status st)) st) st.
Proof.
  intros Hn Hpos Hfree Hps Hk Hrow Hne. unfold reserve_prefill_after_release.
  rewrite Hn. apply wp_bind, wp_lift, wp_bind.
  rewrite (range_pos n) by lia. simpl for_each.
  apply wp_bind, wp_bind. unfold assert_free_page. apply wp_bind, wp_read.
  simpl. apply wp_assert.
  2:{ intros Hb. apply negb_false_iff, Z.eqb_eq in Hb. done. }
  intros _.
  assert (k < length (page_status st))%nat as Hlt.
  { apply first_free_lt; [done|]. destruct (page_status st); [done | simpl; lia]. }
  apply wp_bind, wp_mark_first_free.
  2:{ intros k' Hk' Hle. rewrite Hk in Hk'.
      assert (k' = k) as -> by (injection Hk'; lia). lia. }
  intros k' Hk' _. rewrite Hk in Hk'.
  assert (k' = k) as -> by (injection Hk'; lia). clear Hk'.
  apply getitem_inr in Hrow as (sm & Hsm & Hrow).
  apply wp_bind, wp_getitem_at; simpl; [|congruence].
  intros sm' row' Hsm' Hrow'.
  assert (sm' = sm) as -> by congruence.
  assert (row' = row) as -> by congruence.
  apply wp_bind, wp_store_array_in_cell.
  - change 0 with (Z.of_nat 0). rewrite norm_index_of_nat; [done|].
    destruct row; [done | simpl; lia].
  - done.
Qed.

(** *** A prefill whose page count is 0 or less *)

Lemma prefill_no_page_spec self slot true_length n st s1 s2 :
  prefill_num_pages true_length (page_size self) = inr n ->
  n <= 0 ->
  in_int32 true_length = true ->
  norm_index (length (seq_lengths st)) slot = Some s1 ->
  norm_index (length (seq_num_pages st)) slot = Some s2 ->
  wpk Numpy (reserve_prefill_after_release self slot true_length)
    (fun _ _ => False)
    (fun e st' =>
       e = UnboundLocalError /\
       st' = fset f_seq_num_pages (<[s2 := n]> (seq_num_pages st))
               (fset f_seq_lengths (<[s1 := true_length]> (seq_lengths st)) st)) st.
Proof.
  intros Hn Hle Hfit Hs1 Hs2. unfold reserve_prefill_after_release.
  rewrite Hn. apply wp_bind, wp_lift, wp_bind.
  rewrite (range_nonpos n) by lia. simpl for_each. apply wp_ret.
  apply wp_bind, wp_setint_at; simpl; [|congruence|congruence].
  intros n1 Hn1 _. assert (n1 = s1) as -> by congruence.
  apply wp_bind, wp_setitem_at; simpl; [|congruence].
  intros n2 Hn2. assert (n2 = s2) as -> by congruence.
  apply wp_bind, wp_raise. done.
Qed.

(** ** Invariants of the store, whatever the outcome of a call *)

Lemma wp_conj k {A} (m : M A) Q1 Q2 E1 E2 st :
  wpk k m Q1 E1 st -> wpk k m Q2 E2 st ->
  wpk k m (fun a st' => Q1 a st' /\ Q2 a st') (fun e st' => E1 e st' /\ E2 e st') st.
Proof.
  unfold wpk. intros H1 H2 Hk. specialize (H1 Hk). specialize (H2 Hk).
  destruct (m st) as [[e|a] st']; destruct H1, H2; auto.
Qed.

(** A property that a release and a prefill on [numpy.ndarray]s keep is
    kept by every call of the three operations. *)
Lemma step_preserves (P : PageState -> Prop) self :
  (forall slot T, P T ->
     wpk Numpy (release_slot_pages self slot)
       (fun r st => r = st /\ P st) (fun _ st => P st) T) ->
  (forall slot true_length T, P T ->
     wpk Numpy (reserve_prefill_slot_pages self slot true_length)
       (fun _ st => P st) (fun _ st => P st) T) ->
  forall T T', P T -> step self T T' -> P T'.
Proof.
  intros Hrel Hpre T T' HP Hstep.
  destruct Hstep as [slot r st Hrun|slot T' st Hrun|slot L r st Hrun
                    |slot L T' st Hrun|r st Hrun|T' st Hrun].
  - destruct (kind T) eqn:Hk.
    + destruct (release_jax_unchanged self slot T Hk) as [e He]. congruence.
    + pose proof (wp_run Numpy _ _ _ _ _ _ (Hrel slot T HP) Hk Hrun) as [_ H].
      destruct r; [done | by destruct H].
  - destruct (kind T) eqn:Hk.
    + destruct (release_jax_unchanged self slot T Hk) as [e He]. congruence.
    + pose proof (wp_run Numpy _ _ _ _ _ _ (Hrel slot T HP) Hk Hrun) as [_ [-> H]].
      done.
  - destruct (kind T) eqn:Hk.
    + destruct (prefill_jax_unchanged self slot L T Hk) as [e He]. congruence.
    + pose proof (wp_run Numpy _ _ _ _ _ _ (Hpre slot L T HP) Hk Hrun) as [_ H].
      by destruct r.
  - by destruct (prefill_never_returns _ _ _ _ _ _ Hrun).
  - rewrite decode_raises in Hrun. congruence.
  - rewrite decode_raises in Hrun. congruence.
Qed.

Lemma reachable_preserves (P : PageState -> Prop) self T0 T :
  (forall T T', P T -> step self T T' -> P T') ->
  P T0 -> reachable self T0 T -> P T.
Proof. intros Hstep H0. induction 1; eauto. Qed.

(** *** Mapping rows that hold only zeros *)

Lemma release_rows_zero self slot T :
  Forall all_zero (seq_page_idx_mappings T) ->
  wpk Numpy (release_slot_pages self slot)
    (fun r st => r = st /\ Forall all_zero (seq_page_idx_mappings st))
    (fun _ st => Forall all_zero (seq_page_idx_mappings st)) T.
Proof.
  intros HI. unfold release_slot_pages.
  apply wp_bind, wp_getitem_at; [|done]. intros sn n _ _.
  apply wp_bind.
  apply wp_for_each with
    (Inv := fun _ st => Forall all_zero (seq_page_idx_mappings st)); [done| |].
  - clear. intros i u st HI.
    apply wp_bind, wp_getitem_at; [|done]. intros sm row _ _.
    apply wp_bind, wp_getitem_row. destruct (getitem row i) as [|page_idx]; [done|].
    apply wp_bind, wp_setitem_at; [|done]. intros p _.
    apply wp_bind, wp_getitem_at; [|done]. intros sm' row' _ _.
    apply wp_setitem_at; [|done]. intros sm'' _. simpl.
    apply Forall_insert; [done|]. by apply Forall_replicate.
  - clear. intros _ st HI.
    apply wp_bind, wp_setitem_at; [|done]. intros ? _.
    apply wp_bind, wp_setitem_at; [|done]. intros ? _.
    apply wp_bind, wp_setitem_at; [|done]. intros ? _.
    apply wp_bind, wp_setitem_at; [|done]. intros ? _.
    by apply wp_snapshot.
Qed.

Lemma prefill_rows_zero self slot true_length T :
  Forall all_zero (seq_page_idx_mappings T) ->
  wpk Numpy (reserve_prefill_slot_pages self slot true_length)
    (fun _ st => Forall all_zero (seq_page_idx_mappings st))
    (fun _ st => Forall all_zero (seq_page_idx_mappings st)) T.
Proof.
  intros HI. unfold reserve_prefill_slot_pages. apply wp_bind.
  eapply wp_mono; [apply release_rows_zero; exact HI | | done].
  clear. intros _ st [_ HI]. unfold reserve_prefill_after_release.
  apply wp_bind, wp_lift. destruct (prefill_num_pages _ _) as [|n]; [done|].
  apply wp_bind.
  apply wp_for_each with
    (Inv := fun _ st => Forall all_zero (seq_page_idx_mappings st)); [done| |].
  - clear. intros i acc st HI. apply wp_bind. unfold assert_free_page.
    apply wp_bind, wp_read. apply wp_assert; [|done]. intros _.
    apply wp_bind, wp_mark_first_free; [|done]. intros k _ _.
    apply wp_bind, wp_getitem_at; [|done]. intros sm row _ _.
    apply wp_bind, wp_store_array_in_cell; done.
  - clear. intros acc st HI.
    apply wp_bind, wp_setint_at; [|done|done]. intros n1 _ _.
    apply wp_bind, wp_setitem_at; [|done]. intros n2 _.
    apply wp_bind. destruct acc; [|by apply wp_raise]. apply wp_ret.
    unfold store_array_in_cell_at. apply wp_bind, wp_bind, wp_read.
    apply wp_store_array_in_cell; done.
Qed.

(** *** Table shapes *)

Lemma prefill_keeps_shape self slot true_length st0 :
  table_shape self st0 ->
  wpk Numpy (reserve_prefill_slot_pages self slot true_length)
     (fun _ st' => table_shape self st')
     (fun _ st' => table_shape self st') st0.
Proof.
  intros HI. unfold reserve_prefill_slot_pages. apply wp_bind.
  eapply wp_mono; [apply release_keeps_shape; exact HI | | done].
  clear. intros _ st [_ HI]. unfold reserve_prefill_after_release.
  apply wp_bind, wp_lift. destruct (prefill_num_pages _ _) as [|n]; [done|].
  apply wp_bind.
  apply wp_for_each with (Inv := fun _ st => table_shape self st); [done| |].
  - clear. intros i acc st HI. apply wp_bind. unfold assert_free_page.
    apply wp_bind, wp_read. apply wp_assert; [|done]. intros _.
    apply wp_bind, wp_mark_first_free; [|done]. intros k _ _.
    apply wp_bind, wp_getitem_at; [|intros _; by shape_solve]. intros sm row _ _.
    apply wp_bind, wp_store_array_in_cell; intros _; by shape_solve.
  - clear. intros acc st HI.
    apply wp_bind, wp_setint_at; [|done|done]. intros n1 _ _.
    apply wp_bind, wp_setitem_at; [|intros _; by shape_solve]. intros n2 _.
    apply wp_bind. destruct acc; [|apply wp_raise; by shape_solve]. apply wp_ret.
    unfold store_array_in_cell_at. apply wp_bind, wp_bind, wp_read.
    apply wp_store_array_in_cell; intros _; by shape_solve.
Qed.

(** *** Page counts as line 111 computes them *)




(** *** The frame of a release *)





(** *** The row of a released slot *)

Lemma release_clears_row self slot st0 :
  wpk Numpy (release_slot_pages self slot)
     (fun r st' => r = st' /\ release_row_cleared slot st0 st')
     (fun _ _ => True) st0.
Proof.
  unfold release_slot_pages. apply wp_bind, wp_getitem_at; [|done].
  simpl. intros sn n Hsn Hn.
  pose proof (getitem_norm _ _ _ _ Hsn Hn) as Hgn.
  apply wp_bind.
  apply wp_for_range with (Inv := fun i _ st => release_inv slot st0 i st).
  - constructor; auto; [apply zeros_kept_refl | lia].
  - intros i u st Hi HI.
    eapply wp_mono; [by apply (release_body_inv slot st0 n) | done | done].
  - intros _ st [Hl Hnp Hpi Hsl Hz Hrows Hfirst Hlater].
    assert (forall st' : PageState,
              seq_page_idx_mappings st' = seq_page_idx_mappings st ->
              release_row_cleared slot st0 st') as Hpost.
    { intros st' Hst' n' row0 Hn' Hpos Hrow0. rewrite Hst'.
      assert (n' = n) as -> by congruence.
      destruct (Hlater ltac:(lia)) as (row1 & v1 & k1 & Hg0 & Hg & _).
      congruence. }
    apply wp_bind, wp_setitem_at; simpl; [|done]. intros n1 _.
    apply wp_bind, wp_setitem_at; simpl; [|done]. intros n2 _.
    apply wp_bind, wp_setitem_at; simpl; [|done]. intros n3 _.
    apply wp_bind, wp_setitem_at; simpl; [|done]. intros n4 _.
    apply wp_snapshot. split; [done|]. by apply Hpost.
Qed.

(** *** Tables on which nothing is allocated *)

Lemma all_zero_insert a n : all_zero a -> all_zero (<[n := 0]> a).
Proof. intros H. by apply Forall_insert. Qed.

Ltac none_solve :=
  unfold nothing_allocated; simpl;
  repeat split; try done; try (by apply Forall_insert);
  try (by apply all_zero_insert).

Lemma release_nothing_allocated self slot T :
  nothing_allocated T ->
  wpk Numpy (release_slot_pages self slot)
    (fun r st => r = st /\ nothing_allocated st)
    (fun _ st => nothing_allocated st) T.
Proof.
  intros HI. unfold release_slot_pages.
  apply wp_bind, wp_getitem_at; [|done]. simpl. intros sn n _ Hn.
  assert (n <= 0) as Hle.
  { destruct HI as (_ & _ & Hc & _). rewrite Forall_lookup in Hc. eauto. }
  rewrite (range_nonpos n Hle). simpl for_each. apply wp_bind, wp_ret.
  destruct HI as (Hps & Hrows & Hc & Hpi & Hsl).
  apply wp_bind, wp_setitem_at; [|intros _; none_solve]. intros n1 _.
  apply wp_bind, wp_setitem_at; [|intros _; none_solve]. intros n2 _.
  apply wp_bind, wp_setitem_at; [|intros _; none_solve]. intros n3 _.
  apply wp_bind, wp_setitem_at; [|intros _; none_solve]. intros n4 _.
  apply wp_snapshot. split; [done|]. none_solve.
Qed.

Lemma first_free_all_zero status k :
  all_zero (drop 1 status) -> first_free status = [Z.of_nat k] -> k = 0%nat.
Proof.
  intros Hz Hk. destruct (first_free_spec status) as (k' & Hk' & Hlt & _).
  rewrite Hk in Hk'. assert (k' = k) as -> by (injection Hk'; lia).
  destruct k as [|k]; [done|].
  destruct (Hlt 0%nat ltac:(lia)) as (x & Hx & Hne).
  unfold all_zero in Hz. rewrite Forall_lookup in Hz.
  specialize (Hz 0%nat x). rewrite lookup_drop in Hz. simpl in Hz.
  by specialize (Hz Hx).
Qed.

Lemma drop1_insert0 (a : list Z) v : drop 1 (<[0%nat := v]> a) = drop 1 a.
Proof. by destruct a. Qed.

Lemma prefill_nothing_allocated self slot true_length T :
  nothing_allocated T ->
  wpk Numpy (reserve_prefill_slot_pages self slot true_length)
    (fun _ st => nothing_allocated st)
    (fun _ st => nothing_allocated st) T.
Proof.
  intros HI. unfold reserve_prefill_slot_pages. apply wp_bind.
  eapply wp_mono; [apply release_nothing_allocated; exact HI | | done].
  clear. intros _ st [_ HI]. unfold reserve_prefill_after_release.
  apply wp_bind, wp_lift. destruct (prefill_num_pages _ _) as [|n]; [done|].
  apply wp_bind.
  assert (forall i st, nothing_allocated st ->
            wpk Numpy
              (assert_free_page self;;
               page_idx ← mark_first_free;
               row ← getitem_at f_seq_page_idx_mappings slot;
               store_array_in_cell row i page_idx;;
               mret (Some page_idx))
              (fun _ (_ : PageState) => False)
              (fun _ st => nothing_allocated st) st) as Hbody.
  { clear. intros i st HI. apply wp_bind. unfold assert_free_page.
    apply wp_bind, wp_read. apply wp_assert; [|done]. intros _.
    apply wp_bind, wp_mark_first_free; [|done]. intros k Hk _.
    assert (nothing_allocated
              (fset f_page_status (<[k := 1]> (page_status st)) st)) as HI'.
    { destruct HI as (Hps & Hrest).
      rewrite (first_free_all_zero _ _ Hps Hk).
      unfold nothing_allocated. simpl. by rewrite drop1_insert0. }
    apply wp_bind, wp_getitem_at; [|done]. intros sm row _ _.
    apply wp_bind, wp_store_array_in_cell; done. }
  destruct (Z_le_gt_dec n 0) as [Hle|Hgt].
  - rewrite (range_nonpos n Hle). simpl for_each. apply wp_ret.
    apply wp_bind, wp_setint_at; [|done|done]. intros n1 _ _.
    assert (nothing_allocated
              (fset f_seq_lengths (<[n1 := true_length]> (seq_lengths st)) st))
      as HI1 by exact HI.
    apply wp_bind, wp_setitem_at; [|done]. intros n2 _.
    apply wp_bind, wp_raise.
    destruct HI as (Hps & Hrows & Hc & Hpi & Hsl).
    unfold nothing_allocated. simpl.
    split; [done|]. split; [done|]. split; [by apply Forall_insert|]. done.
  - rewrite (range_pos n) by lia. simpl for_each. apply wp_bind.
    eapply wp_mono; [apply Hbody; exact HI | done | done].
Qed.

Lemma init_nothing_allocated n p s mt mp self :
  PageManager_init n p s mt mp = inr self ->
  nothing_allocated (page_state self).
Proof.
  intros Hinit.
  apply PageManager_init_inr in Hinit as (_ & _ & _ & _ & _ & _ & _ & _ & ->).
  unfold nothing_allocated, all_zero, zeros, zeros2. simpl.
  split; [apply Forall_drop, Forall_replicate; done|].
  split; [by repeat apply Forall_replicate|].
  split; [apply Forall_replicate; lia|].
  split; by apply Forall_replicate.
Qed.

(** ** Outcomes of the operations *)

Lemma release_returns_numpy self slot T T' st :
  release_slot_pages self slot T = (inr T', st) -> kind T = Numpy.
Proof.
  intros Hrun. destruct (kind T) eqn:Hk; [|done].
  destruct (release_jax_unchanged self slot T Hk) as [e He]. congruence.
Qed.

Lemma release_effect self slot T T' st :
  release_slot_pages self slot T = (inr T', st) ->
  T' = st /\ release_frame slot T T'.
Proof.
  intros Hrun. pose proof (release_returns_numpy _ _ _ _ _ Hrun) as Hk.
  pose proof (wp_run Numpy _ _ _ _ _ _ (release_frame_spec self slot T) Hk Hrun)
    as [_ [-> H]].
  done.
Qed.

Lemma release_keeps_kind self slot T r st :
  release_slot_pages self slot T = (r, st) -> kind st = kind T.
Proof.
  intros Hrun. destruct (kind T) eqn:Hk.
  - destruct (release_jax_unchanged self slot T Hk) as [e He]. congruence.
  - by pose proof (wp_run Numpy _ _ _ _ _ _ (release_any self slot T) Hk Hrun)
      as [-> _].
Qed.

Lemma release_returned_kind self slot T T' st :
  release_slot_pages self slot T = (inr T', st) -> kind st = Numpy.
Proof.
  intros Hrun. rewrite (release_keeps_kind _ _ _ _ _ Hrun).
  by apply (release_returns_numpy _ _ _ _ _ Hrun).
Qed.

Lemma release_invalid_slot self slot T :
  valid_index (seq_num_pages T) slot = false ->
  wpk Numpy (release_slot_pages self slot)
     (fun _ _ => False) (fun e st => e = IndexError /\ st = T) T.
Proof.
  intros Hv. unfold release_slot_pages.
  apply wp_bind, wp_getitem_at; [|done].
  intros n x Hn _. unfold valid_index in Hv. simpl in Hn. by rewrite Hn in Hv.
Qed.

(** A prefill is its release followed by the allocation. *)
Lemma prefill_unfold self slot true_length T r T' :
  release_slot_pages self slot T = (inr r, T') ->
  reserve_prefill_slot_pages self slot true_length T =
    reserve_prefill_after_release self slot true_length T'.
Proof.
  intros Hrel. unfold reserve_prefill_slot_pages, mbind, M_mbind, M_bind.
  by rewrite Hrel.
Qed.


(** *** The zeroed table *)


Lemma init_rows_zero n p s mt mp self :
  PageManager_init n p s mt mp = inr self ->
  Forall all_zero (seq_page_idx_mappings (page_state self)).
Proof.
  intros Hinit.
  apply PageManager_init_inr in Hinit as (_ & _ & _ & _ & _ & _ & _ & _ & ->).
  simpl. unfold zeros2, zeros, all_zero. by repeat apply Forall_replicate.
Qed.


(** *** Stores that calls on NumPy arrays leave behind *)

Lemma reachable_marked0 :
  reachable Tables.mgrA (with_kind Numpy (page_state Tables.mgrA)) Tables.marked0.
Proof.
  eapply reach_step; [apply reach_start|].
  apply (step_prefill _ _ 0 5 (inl TypeError) Tables.marked0). reflexivity.
Qed.




Lemma table_shape_two_pages : table_shape Tables.mgrA Tables.two_pages.
Proof.
  unfold table_shape. simpl.
  repeat split; try reflexivity. repeat constructor.
Qed.

(** * The claims *)

(** C1. No double ownership.  In every table reachable from the zeroed
    construction-time table, held in the [jax.Array]s that [__init__]
    builds or in NumPy arrays, by any sequence of calls of
    [release_slot_pages], [reserve_prefill_slot_pages] and
    [reserve_decode_step_pages] (the states in which raising calls leave
    the caller's arrays included), a page index that appears in the
    mapping rows of two different slots is the sentinel 0. *)
Theorem no_double_ownership n p ns mt mp self k T :
  PageManager_init n p ns mt mp = inr self ->
  reachable self (with_kind k (page_state self)) T ->
  forall (s1 s2 : nat) (row1 row2 : list Z) (page : Z),
    s1 <> s2 ->
    seq_page_idx_mappings T !! s1 = Some row1 ->
    seq_page_idx_mappings T !! s2 = Some row2 ->
    page ∈ row1 -> page ∈ row2 -> page = 0.
Proof.
  intros Hinit Hr s1 s2 row1 row2 page _ H1 _ Hp1 _.
  assert (Forall all_zero (seq_page_idx_mappings T)) as Hm.
  { apply (reachable_preserves
             (fun T => Forall all_zero (seq_page_idx_mappings T)) self
             (with_kind k (page_state self)) T);
      [|by apply (init_rows_zero _ _ _ _ _ _ Hinit)|exact Hr].
    apply step_preserves.
    - intros slot T0 H0. by apply release_rows_zero.
    - intros slot L T0 H0. by apply prefill_rows_zero. }
  rewrite Forall_lookup in Hm. specialize (Hm _ _ H1).
  unfold all_zero in Hm. rewrite Forall_forall in Hm. by apply Hm.
Qed.

Lemma no_double_ownership_witness :
  PageManager_init 5 4 2 16 8 = inr Tables.mgrA /\
  reachable Tables.mgrA (with_kind Numpy (page_state Tables.mgrA)) Tables.marked0 /\
  forall (s1 s2 : nat) (row1 row2 : list Z) (page : Z),
    s1 <> s2 ->
    seq_page_idx_mappings Tables.marked0 !! s1 = Some row1 ->
    seq_page_idx_mappings Tables.marked0 !! s2 = Some row2 ->
    page ∈ row1 -> page ∈ row2 -> page = 0.
Proof.
  split; [reflexivity|]. split; [exact reachable_marked0|].
  apply (no_double_ownership 5 4 2 16 8 Tables.mgrA Numpy Tables.marked0).
  - reflexivity.
  - exact reachable_marked0.
Defined.

(** C2. Scenario A never gets to allocate pages 1 and 2.  With
    [num_pages=5, page_size=4, slots=2], [reserve_prefill_slot_pages
    (slot=0, true_length=5)] raises [TypeError] on the zeroed
    construction-time table and leaves it as it was; on the same table in
    NumPy arrays it marks index 0 of [page_status], not page 1, and then
    raises [TypeError], with nothing recorded in the row of slot 0 and
    [seq_lengths[0]], [seq_num_pages[0]] still 0. *)
Theorem prefill_scenario_A :
  PageManager_init 5 4 2 16 8 = inr Tables.mgrA /\
  reserve_prefill_slot_pages Tables.mgrA 0 5 (page_state Tables.mgrA) =
    (inl TypeError, page_state Tables.mgrA) /\
  with_kind Numpy (page_state Tables.mgrA) = Tables.zeroed5 /\
  reserve_prefill_slot_pages Tables.mgrA 0 5 Tables.zeroed5 =
    (inl TypeError, Tables.marked0) /\
  page_status Tables.marked0 = [1; 0; 0; 0; 0] /\
  seq_page_idx_mappings Tables.marked0 !! 0%nat = Some [0; 0; 0; 0] /\
  seq_lengths Tables.marked0 !! 0%nat = Some 0 /\
  seq_num_pages Tables.marked0 !! 0%nat = Some 0.
Proof. repeat split. Qed.

(** C3, on a slot that holds pages 1 and 2.  The release resets the four
    bookkeeping entries of slot 0 and frees page 1, but page 2, the second
    entry of the slot's row, is still marked used afterwards. *)
Theorem release_leaves_second_page_used :
  seq_page_idx_mappings Tables.two_pages !! 0%nat = Some [1; 2; 0; 0] /\
  release_slot_pages Tables.mgrA 0 Tables.two_pages =
    (inr Tables.two_pages_released, Tables.two_pages_released) /\
  page_status Tables.two_pages_released !! 2%nat = Some 1.
Proof. repeat split. Qed.




(** C5. The sentinel gets marked.  On the zeroed table of [num_pages=5,
    page_size=4, slots=2] held in NumPy arrays,
    [reserve_prefill_slot_pages (slot=0, true_length=5)] sets
    [page_status[0]] to 1 before it raises [TypeError]; the arrays it
    leaves are reachable, with index 0 marked and every page from 1 on
    free.  On the [jax.Array]s of [__init__] the same call raises before
    anything is marked. *)
Theorem sentinel_marked_used :
  PageManager_init 5 4 2 16 8 = inr Tables.mgrA /\
  with_kind Numpy (page_state Tables.mgrA) = Tables.zeroed5 /\
  page_status Tables.zeroed5 !! 0%nat = Some 0 /\
  reserve_prefill_slot_pages Tables.mgrA 0 5 Tables.zeroed5 =
    (inl TypeError, Tables.marked0) /\
  reachable Tables.mgrA (with_kind Numpy (page_state Tables.mgrA)) Tables.marked0 /\
  page_status Tables.marked0 !! 0%nat = Some 1 /\
  drop 1 (page_status Tables.marked0) = [0; 0; 0; 0] /\
  reserve_prefill_slot_pages Tables.mgrA 0 5 (page_state Tables.mgrA) =
    (inl TypeError, page_state Tables.mgrA).
Proof.
  split; [reflexivity|]. split; [reflexivity|]. split; [reflexivity|].
  split; [reflexivity|]. split; [exact reachable_marked0|]. repeat split.
Qed.

(** C6. The decode step increments nothing and allocates nothing: on every
    table, whatever the arrays that hold it, [reserve_decode_step_pages]
    raises [TypeError] at line 144 and leaves the arrays as they were; so
    on the table of scenario B, where slot 0 holds five tokens,
    [seq_lengths[0]] stays 5. *)
Theorem decode_step_raises self T :
  reserve_decode_step_pages self T = (inl TypeError, T) /\
  reserve_decode_step_pages Tables.mgrA Tables.two_pages =
    (inl TypeError, Tables.two_pages) /\
  reserve_decode_step_pages Tables.mgrA Tables.two_pages_jax =
    (inl TypeError, Tables.two_pages_jax) /\
  seq_lengths Tables.two_pages !! 0%nat = Some 5.
Proof. repeat split. Qed.




(** C8, counterexample.  No request is rejected as invalid.  On the zeroed
    table in NumPy arrays, [true_length = -3] raises [UnboundLocalError]
    after [seq_lengths[0]] has been set to -3; [true_length = 5], two pages
    where [max_pages_per_prefill] is 1, raises [TypeError] after index 0 of
    [page_status] has been marked, exactly as it does where two pages per
    prefill are allowed.  On the construction-time table both requests
    raise the [TypeError] that the valid request [true_length = 4]
    raises. *)
Lemma prefill_invalid_request_not_rejected :
  reserve_prefill_slot_pages Tables.mgr1 0 (-3) Tables.zeroed5 =
    (inl UnboundLocalError, Tables.after_negative_length) /\
  seq_lengths Tables.after_negative_length !! 0%nat = Some (-3) /\
  max_pages_per_prefill Tables.mgr1 = 1 /\
  prefill_num_pages 5 (page_size Tables.mgr1) = inr 2 /\
  reserve_prefill_slot_pages Tables.mgr1 0 5 Tables.zeroed5 =
    (inl TypeError, Tables.marked0) /\
  max_pages_per_prefill Tables.mgrA = 2 /\
  reserve_prefill_slot_pages Tables.mgrA 0 5 Tables.zeroed5 =
    (inl TypeError, Tables.marked0) /\
  page_status Tables.marked0 !! 0%nat = Some 1 /\
  reserve_prefill_slot_pages Tables.mgr1 0 (-3) (page_state Tables.mgr1) =
    (inl TypeError, page_state Tables.mgr1) /\
  reserve_prefill_slot_pages Tables.mgr1 0 5 (page_state Tables.mgr1) =
    (inl TypeError, page_state Tables.mgr1) /\
  reserve_prefill_slot_pages Tables.mgr1 0 4 (page_state Tables.mgr1) =
    (inl TypeError, page_state Tables.mgr1).
Proof.
  split; [vm_compute; reflexivity|]. split; [reflexivity|].
  split; [reflexivity|]. split; [vm_compute; reflexivity|].
  split; [vm_compute; reflexivity|]. split; [reflexivity|].
  split; [vm_compute; reflexivity|]. repeat split.
Qed.

(** C8, amended.  [reserve_prefill_slot_pages] checks no request: its
    outcome is the same whatever [max_pages_per_prefill] is, and when its
    release has returned (which it does on NumPy arrays only) and the page
    count that line 111 computes is 0 or less, it stores [true_length] in [seq_lengths[slot]]
    and that count in [seq_num_pages[slot]] and then raises
    [UnboundLocalError]. *)
Theorem prefill_checks_no_request self slot true_length T T' n s1 s2 limit :
  release_slot_pages self slot T = (inr T', T') ->
  prefill_num_pages true_length (page_size self) = inr n ->
  n <= 0 ->
  in_int32 true_length = true ->
  norm_index (length (seq_lengths T')) slot = Some s1 ->
  norm_index (length (seq_num_pages T')) slot = Some s2 ->
  reserve_prefill_slot_pages self slot true_length T =
    (inl UnboundLocalError,
     fset f_seq_num_pages (<[s2 := n]> (seq_num_pages T'))
       (fset f_seq_lengths (<[s1 := true_length]> (seq_lengths T')) T')) /\
  forall slot0 true_length0 T0,
    reserve_prefill_slot_pages (with_max_pages_per_prefill limit self)
      slot0 true_length0 T0 =
    reserve_prefill_slot_pages self slot0 true_length0 T0.
Proof.
  intros Hrel Hn Hle Hfit Hs1 Hs2. split; [|by destruct self].
  rewrite (prefill_unfold _ _ _ _ _ _ Hrel).
  pose proof (release_returned_kind _ _ _ _ _ Hrel) as Hk'.
  apply (wp_raises Numpy); [exact Hk'|].
  by apply (prefill_no_page_spec self slot true_length n T' s1 s2).
Qed.

Lemma prefill_checks_no_request_witness :
  release_slot_pages Tables.mgr1 0 Tables.zeroed5 =
    (inr Tables.zeroed5, Tables.zeroed5) /\
  prefill_num_pages (-3) (page_size Tables.mgr1) = inr 0 /\
  0 <= 0 /\
  in_int32 (-3) = true /\
  norm_index (length (seq_lengths Tables.zeroed5)) 0 = Some 0%nat /\
  norm_index (length (seq_num_pages Tables.zeroed5)) 0 = Some 0%nat /\
  reserve_prefill_slot_pages Tables.mgr1 0 (-3) Tables.zeroed5 =
    (inl UnboundLocalError,
     fset f_seq_num_pages (<[0%nat := 0]> (seq_num_pages Tables.zeroed5))
       (fset f_seq_lengths (<[0%nat := -3]> (seq_lengths Tables.zeroed5))
          Tables.zeroed5)) /\
  forall slot0 true_length0 T0,
    reserve_prefill_slot_pages (with_max_pages_per_prefill 7 Tables.mgr1)
      slot0 true_length0 T0 =
    reserve_prefill_slot_pages Tables.mgr1 slot0 true_length0 T0.
Proof.
  split; [reflexivity|].
  split; [vm_compute; reflexivity|]. split; [lia|].
  split; [reflexivity|]. split; [reflexivity|]. split; [reflexivity|].
  apply (prefill_checks_no_request Tables.mgr1 0 (-3) Tables.zeroed5
           Tables.zeroed5 0 0%nat 0%nat 7).
  - reflexivity.
  - vm_compute. reflexivity.
  - lia.
  - reflexivity.
  - reflexivity.
  - reflexivity.
Defined.

(** C9. There is no round trip.  With [num_pages=5, page_size=4,
    slots=2], the prefill of slot 0 with five tokens returns no table on
    which the release could be called: on the construction-time table it
    raises [TypeError] with the arrays untouched, and on the same table in
    NumPy arrays it raises [TypeError] after [page_status[0]], which was
    0, has been set to 1; the release of slot 0 that follows returns those
    arrays with [page_status[0]] still 1. *)
Theorem prefill_round_trip_fails :
  PageManager_init 5 4 2 16 8 = inr Tables.mgrA /\
  reserve_prefill_slot_pages Tables.mgrA 0 5 (page_state Tables.mgrA) =
    (inl TypeError, page_state Tables.mgrA) /\
  reserve_prefill_slot_pages Tables.mgrA 0 5 Tables.zeroed5 =
    (inl TypeError, Tables.marked0) /\
  page_status Tables.zeroed5 !! 0%nat = Some 0 /\
  release_slot_pages Tables.mgrA 0 Tables.marked0 =
    (inr Tables.marked0, Tables.marked0) /\
  page_status Tables.marked0 !! 0%nat = Some 1.
Proof. repeat split. Qed.



(** * Further properties *)

(** X1.  A manager that [__init__] constructs has a non-zero page size, its
    two page limits multiply back to the lengths they were computed from,
    and its table has [num_pages] status entries, [slots] rows of
    [max_pages_per_slot] entries and [slots] entries in each per-slot
    array, all of them 0. *)
Theorem init_constructs n p s mt mp self :
  PageManager_init n p s mt mp = inr self ->
  page_size self <> 0 /\
  max_pages_per_slot self * page_size self = max_target_length self /\
  max_pages_per_prefill self * page_size self = max_prefill_predict_length self /\
  table_shape self (page_state self) /\
  all_zero (page_status (page_state self)) /\
  Forall all_zero (seq_page_idx_mappings (page_state self)) /\
  all_zero (seq_lengths (page_state self)) /\
  all_zero (seq_num_pages (page_state self)) /\
  all_zero (seq_page_indices (page_state self)) /\
  all_zero (seq_page_slice_indices (page_state self)).
Proof.
  unfold PageManager_init.
  destruct (p =? 0) eqn:Hp; [done|].
  destruct (mt mod p =? 0) eqn:Hmt; [|done].
  destruct (mp mod p =? 0) eqn:Hmp; [|done]. simpl.
  destruct ((n <? 0) || (s <? 0) || (mt / p <? 0)) eqn:Hneg; [done|].
  intros [= <-]. simpl.
  assert (p <> 0) as Hp0 by lia.
  split; [done|].
  split; [rewrite Z.mul_comm; symmetry; apply Z.div_exact; lia|].
  split; [rewrite Z.mul_comm; symmetry; apply Z.div_exact; lia|].
  split.
  - unfold table_shape, zeros, zeros2. simpl. rewrite !length_replicate.
    repeat split; try done. apply Forall_replicate.
    unfold zeros. by rewrite length_replicate.
  - unfold all_zero, zeros, zeros2.
    repeat split; repeat apply Forall_replicate; done.
Qed.

Lemma init_constructs_witness :
  PageManager_init 5 4 2 16 8 = inr Tables.mgrA /\
  page_size Tables.mgrA <> 0 /\
  max_pages_per_slot Tables.mgrA * page_size Tables.mgrA =
    max_target_length Tables.mgrA /\
  max_pages_per_prefill Tables.mgrA * page_size Tables.mgrA =
    max_prefill_predict_length Tables.mgrA /\
  table_shape Tables.mgrA (page_state Tables.mgrA) /\
  all_zero (page_status (page_state Tables.mgrA)) /\
  Forall all_zero (seq_page_idx_mappings (page_state Tables.mgrA)) /\
  all_zero (seq_lengths (page_state Tables.mgrA)) /\
  all_zero (seq_num_pages (page_state Tables.mgrA)) /\
  all_zero (seq_page_indices (page_state Tables.mgrA)) /\
  all_zero (seq_page_slice_indices (page_state Tables.mgrA)).
Proof.
  split; [reflexivity|].
  apply (init_constructs 5 4 2 16 8 Tables.mgrA). reflexivity.
Defined.

(** X2.  No operation resizes an array: started on a table with the sizes
    of the construction-time table, a release and a prefill leave the
    caller's arrays with those sizes whether they return or raise, the
    table a release returns is the caller's, a prefill returns none, and a
    decode step raises [TypeError] with the arrays as they were. *)
Theorem operations_keep_table_shape self T :
  table_shape self T ->
  (forall slot r st,
     release_slot_pages self slot T = (r, st) ->
     table_shape self st /\ forall T', r = inr T' -> T' = st) /\
  (forall slot true_length r st,
     reserve_prefill_slot_pages self slot true_length T = (r, st) ->
     table_shape self st /\ exists e, r = inl e) /\
  (forall r st,
     reserve_decode_step_pages self T = (r, st) ->
     table_shape self st /\ r = inl TypeError).
Proof.
  intros HT. split; [|split].
  - intros slot r st Hrun. destruct (kind T) eqn:Hk.
    + destruct (release_jax_unchanged self slot T Hk) as [e He].
      rewrite He in Hrun. injection Hrun as <- <-. done.
    + pose proof (wp_run Numpy _ _ _ _ _ _ (release_keeps_shape self slot T HT)
                    Hk Hrun) as [_ H].
      destruct r as [e|T']; [split; [done|]; by intros T' [=]|].
      destruct H as [-> H]. split; [done|]. by intros T' [= <-].
  - intros slot L r st Hrun.
    split; [|by apply (prefill_never_returns _ _ _ _ _ _ Hrun)].
    destruct (kind T) eqn:Hk.
    + destruct (prefill_jax_unchanged self slot L T Hk) as [e He].
      rewrite He in Hrun. by injection Hrun as <- <-.
    + pose proof (wp_run Numpy _ _ _ _ _ _ (prefill_keeps_shape self slot L T HT)
                    Hk Hrun) as [_ H].
      by destruct r.
  - intros r st Hrun. rewrite decode_raises in Hrun.
    by injection Hrun as <- <-.
Qed.

Lemma operations_keep_table_shape_witness :
  table_shape Tables.mgrA Tables.two_pages /\
  (forall slot r st,
     release_slot_pages Tables.mgrA slot Tables.two_pages = (r, st) ->
     table_shape Tables.mgrA st /\ forall T', r = inr T' -> T' = st) /\
  (forall slot true_length r st,
     reserve_prefill_slot_pages Tables.mgrA slot true_length Tables.two_pages =
       (r, st) ->
     table_shape Tables.mgrA st /\ exists e, r = inl e) /\
  (forall r st,
     reserve_decode_step_pages Tables.mgrA Tables.two_pages = (r, st) ->
     table_shape Tables.mgrA st /\ r = inl TypeError).
Proof.
  split; [exact table_shape_two_pages|].
  apply (operations_keep_table_shape Tables.mgrA Tables.two_pages).
  exact table_shape_two_pages.
Defined.

(** X3.  Release is idempotent: the table a release returns has the four
    bookkeeping entries of the slot at 0, and releasing the same slot of it
    again returns it unchanged. *)
Theorem release_idempotent self slot T T1 st :
  release_slot_pages self slot T = (inr T1, st) ->
  slot_reset slot T1 /\
  release_slot_pages self slot T1 = (inr T1, T1).
Proof.
  intros Hrun.
  pose proof (release_returns_numpy _ _ _ _ _ Hrun) as Hk.
  pose proof (wp_run Numpy _ _ _ _ _ _ (release_bookkeeping self slot T) Hk Hrun)
    as [Hk' [-> Hr]].
  split; [done|]. by apply release_reset_slot_noop.
Qed.

Lemma release_idempotent_witness :
  release_slot_pages Tables.mgrA 0 Tables.two_pages =
    (inr Tables.two_pages_released, Tables.two_pages_released) /\
  slot_reset 0 Tables.two_pages_released /\
  release_slot_pages Tables.mgrA 0 Tables.two_pages_released =
    (inr Tables.two_pages_released, Tables.two_pages_released).
Proof.
  split; [reflexivity|].
  apply (release_idempotent Tables.mgrA 0 Tables.two_pages
           Tables.two_pages_released Tables.two_pages_released).
  reflexivity.
Defined.

(** X4.  On NumPy arrays, release raises nothing when the slot is a valid
    index of the per-slot arrays and, if the slot holds pages, its mapping
    row has at least [seq_num_pages[slot]] entries and the first of them
    is a valid index of [page_status] ([release_ready]).  It then returns
    the caller's table, in which the slot's four bookkeeping entries are
    0, every entry of [page_status] that was 0 is still 0 and, if the slot
    held pages, the entry of [page_status] that the first entry of its row
    addresses is 0 and its row holds only zeros. *)
Theorem release_returns_when_ready self slot T :
  kind T = Numpy ->
  release_ready slot T = true ->
  exists T',
    release_slot_pages self slot T = (inr T', T') /\
    slot_reset slot T' /\
    release_post slot T T' /\
    release_row_cleared slot T T'.
Proof.
  intros Hk Hready.
  destruct (release_slot_pages self slot T) as [[e|T'] st] eqn:Hrun.
  - pose proof (wp_run Numpy _ _ _ _ _ _ (release_spec self slot T) Hk Hrun)
      as [_ Hf].
    simpl in Hf. congruence.
  - pose proof (wp_run Numpy _ _ _ _ _ _ (release_spec self slot T) Hk Hrun)
      as [_ [-> Hpost]].
    pose proof (wp_run Numpy _ _ _ _ _ _ (release_bookkeeping self slot T) Hk Hrun)
      as [_ [_ Hr]].
    pose proof (wp_run Numpy _ _ _ _ _ _ (release_clears_row self slot T) Hk Hrun)
      as [_ [_ Hc]].
    exists st. done.
Qed.

Lemma release_returns_when_ready_witness :
  kind MoreTables.three_pages = Numpy /\
  release_ready 1 MoreTables.three_pages = true /\
  exists T',
    release_slot_pages Tables.mgrA 1 MoreTables.three_pages = (inr T', T') /\
    slot_reset 1 T' /\
    release_post 1 MoreTables.three_pages T' /\
    release_row_cleared 1 MoreTables.three_pages T'.
Proof.
  split; [reflexivity|]. split; [reflexivity|].
  apply (release_returns_when_ready Tables.mgrA 1 MoreTables.three_pages).
  - reflexivity.
  - reflexivity.
Defined.

(** X5.  What a release leaves alone.  It never marks a page: every entry
    of [page_status] keeps its value or becomes 0, also when the call
    raises.  When it returns, the bookkeeping entries and mapping rows of
    the other slots are as before, and [page_status] is unchanged at every
    index other than 0 and the one the first entry of the slot's row
    addresses. *)
Theorem release_changes_only_its_slot self slot T r st :
  release_slot_pages self slot T = (r, st) ->
  only_cleared (page_status T) (page_status st) /\
  forall T', r = inr T' -> T' = st /\ release_frame slot T T'.
Proof.
  intros Hrun. split.
  - destruct (kind T) eqn:Hk.
    + destruct (release_jax_unchanged self slot T Hk) as [e He].
      rewrite He in Hrun. injection Hrun as <- <-.
      split; [done|]. intros p. by left.
    + pose proof (wp_run Numpy _ _ _ _ _ _ (release_only_clears self slot T)
                    Hk Hrun) as [_ H].
      by destruct r.
  - intros T' ->. by apply (release_effect self).
Qed.

Lemma release_changes_only_its_slot_witness :
  release_slot_pages Tables.mgrA 1 MoreTables.three_pages =
    (inr MoreTables.three_pages_released, MoreTables.three_pages_released) /\
  only_cleared (page_status MoreTables.three_pages)
    (page_status MoreTables.three_pages_released) /\
  forall T',
    inr MoreTables.three_pages_released = @inr exn PageState T' ->
    T' = MoreTables.three_pages_released /\
    release_frame 1 MoreTables.three_pages T'.
Proof.
  split; [reflexivity|].
  apply (release_changes_only_its_slot Tables.mgrA 1 MoreTables.three_pages
           (inr MoreTables.three_pages_released) MoreTables.three_pages_released).
  reflexivity.
Defined.

(** X6.  [reserve_prefill_slot_pages] returns no table, whatever the
    manager, the slot, the length, the table and the arrays that hold it:
    every call raises. *)
Theorem prefill_always_raises self slot true_length T r st :
  reserve_prefill_slot_pages self slot true_length T = (r, st) ->
  exists e, r = inl e.
Proof. apply prefill_never_returns. Qed.

Lemma prefill_always_raises_witness :
  reserve_prefill_slot_pages Tables.mgrA 0 5 Tables.zeroed5 =
    (inl TypeError, Tables.marked0) /\
  exists e, @inl exn PageState TypeError = inl e.
Proof.
  split; [reflexivity|].
  apply (prefill_always_raises Tables.mgrA 0 5 Tables.zeroed5 (inl TypeError)
           Tables.marked0).
  reflexivity.
Defined.

(** X8.  What a prefill that needs a page does to NumPy arrays.  When its
    release has returned (which it does on NumPy arrays only), some entry of [page_status[1:]] counts as free
    and the slot has a row with at least one entry, the call sets
    [page_status[k]] to 1, [k] being the index that [jnp.where] returns
    for the slice [page_status[1:]], writes nothing else and raises
    [TypeError]. *)
Theorem prefill_marks_one_entry_then_fails self slot true_length T T' n k row :
  release_slot_pages self slot T = (inr T', T') ->
  prefill_num_pages true_length (page_size self) = inr n ->
  1 <= n ->
  count_nonzero (drop 1 (page_status T')) <> num_pages self - 1 ->
  page_status T' <> [] ->
  first_free (page_status T') = [Z.of_nat k] ->
  getitem (seq_page_idx_mappings T') slot = inr row ->
  row <> [] ->
  reserve_prefill_slot_pages self slot true_length T =
    (inl TypeError, fset f_page_status (<[k := 1]> (page_status T')) T').
Proof.
  intros Hrel Hn Hpos Hfree Hps Hfirst Hrow Hne.
  rewrite (prefill_unfold _ _ _ _ _ _ Hrel).
  pose proof (release_returned_kind _ _ _ _ _ Hrel) as Hk'.
  apply (wp_raises Numpy); [exact Hk'|].
  by apply (prefill_marks_spec self slot true_length n T' k row).
Qed.

Lemma prefill_marks_one_entry_then_fails_witness :
  release_slot_pages Tables.mgrA 0 MoreTables.three_pages =
    (inr MoreTables.three_pages, MoreTables.three_pages) /\
  prefill_num_pages 5 (page_size Tables.mgrA) = inr 2 /\
  1 <= 2 /\
  count_nonzero (drop 1 (page_status MoreTables.three_pages)) <>
    num_pages Tables.mgrA - 1 /\
  page_status MoreTables.three_pages <> [] /\
  first_free (page_status MoreTables.three_pages) = [Z.of_nat 0] /\
  getitem (seq_page_idx_mappings MoreTables.three_pages) 0 = inr [0; 0; 0; 0] /\
  [0; 0; 0; 0] <> [] /\
  reserve_prefill_slot_pages Tables.mgrA 0 5 MoreTables.three_pages =
    (inl TypeError,
     fset f_page_status (<[0%nat := 1]> (page_status MoreTables.three_pages))
       MoreTables.three_pages).
Proof.
  split; [reflexivity|].
  split; [vm_compute; reflexivity|]. split; [lia|].
  split; [vm_compute; discriminate|]. split; [discriminate|].
  split; [reflexivity|]. split; [reflexivity|]. split; [discriminate|].
  apply (prefill_marks_one_entry_then_fails Tables.mgrA 0 5 MoreTables.three_pages
           MoreTables.three_pages 2 0%nat [0; 0; 0; 0]).
  - reflexivity.
  - vm_compute. reflexivity.
  - lia.
  - vm_compute. discriminate.
  - discriminate.
  - reflexivity.
  - reflexivity.
  - discriminate.
Defined.

(** X15.  On NumPy arrays a slot number that is not an index of
    [seq_num_pages] is rejected before anything is written:
    [release_slot_pages] raises [IndexError] on its first read,
    [reserve_prefill_slot_pages], which starts with the release, raises
    the same, and both leave all six arrays as they were. *)
Theorem invalid_slot_rejected self slot true_length T :
  kind T = Numpy ->
  valid_index (seq_num_pages T) slot = false ->
  release_slot_pages self slot T = (inl IndexError, T) /\
  reserve_prefill_slot_pages self slot true_length T = (inl IndexError, T).
Proof.
  intros Hk Hv. split.
  - apply (wp_raises Numpy); [exact Hk|]. by apply release_invalid_slot.
  - apply (wp_raises Numpy); [exact Hk|]. unfold reserve_prefill_slot_pages.
    apply wp_bind.
    eapply wp_mono; [apply release_invalid_slot; exact Hv | done | done].
Qed.

Lemma invalid_slot_rejected_witness :
  kind Tables.zeroed5 = Numpy /\
  valid_index (seq_num_pages Tables.zeroed5) 2 = false /\
  release_slot_pages Tables.mgrA 2 Tables.zeroed5 =
    (inl IndexError, Tables.zeroed5) /\
  reserve_prefill_slot_pages Tables.mgrA 2 5 Tables.zeroed5 =
    (inl IndexError, Tables.zeroed5).
Proof.
  split; [reflexivity|]. split; [reflexivity|].
  apply (invalid_slot_rejected Tables.mgrA 2 5 Tables.zeroed5).
  - reflexivity.
  - reflexivity.
Defined.



(** X11.  Nothing is ever allocated.  In every table reachable from the
    zeroed construction-time table, in [jax.Array]s or in NumPy arrays, by
    calls of the three operations (the states that raising calls leave
    included), the arrays have the sizes [__init__] gave them, no entry of
    [page_status] from index 1 on is marked, every mapping row holds only
    zeros, no slot counts a page, and [seq_page_indices] and
    [seq_page_slice_indices] are all zero. *)
Theorem reachable_tables_keep_shape_and_zeros n p ns mt mp self k T :
  PageManager_init n p ns mt mp = inr self ->
  reachable self (with_kind k (page_state self)) T ->
  table_shape self T /\
  count_nonzero (drop 1 (page_status T)) = 0 /\
  nothing_allocated T.
Proof.
  intros Hinit Hr.
  assert (table_shape self T /\ nothing_allocated T) as [Hshape Hnone].
  { apply (reachable_preserves
             (fun T => table_shape self T /\ nothing_allocated T) self
             (with_kind k (page_state self)) T); [| |exact Hr].
    - apply step_preserves.
      + intros slot T0 [H1 H2].
        eapply wp_mono;
          [exact (wp_conj Numpy _ _ _ _ _ _
                    (release_keeps_shape self slot T0 H1)
                    (release_nothing_allocated self slot T0 H2)) | |].
        * intros r st [[-> Ha] [_ Hb]]. done.
        * intros e st [Ha Hb]. done.
      + intros slot L T0 [H1 H2].
        exact (wp_conj Numpy _ _ _ _ _ _
                 (prefill_keeps_shape self slot L T0 H1)
                 (prefill_nothing_allocated self slot L T0 H2)).
    - split; [exact (init_table_shape _ _ _ _ _ _ Hinit)|].
      exact (init_nothing_allocated _ _ _ _ _ _ Hinit). }
  split; [done|]. split; [|done].
  apply count_nonzero_all_zero. by destruct Hnone.
Qed.

Lemma reachable_tables_keep_shape_and_zeros_witness :
  PageManager_init 5 4 2 16 8 = inr Tables.mgrA /\
  reachable Tables.mgrA (with_kind Numpy (page_state Tables.mgrA)) Tables.marked0 /\
  table_shape Tables.mgrA Tables.marked0 /\
  count_nonzero (drop 1 (page_status Tables.marked0)) = 0 /\
  nothing_allocated Tables.marked0.
Proof.
  split; [reflexivity|]. split; [exact reachable_marked0|].
  apply (reachable_tables_keep_shape_and_zeros 5 4 2 16 8 Tables.mgrA Numpy
           Tables.marked0).
  - reflexivity.
  - exact reachable_marked0.
Defined.

(** X17.  When [__init__] raises before it has built an array, and with
    what: [ZeroDivisionError] for a page size of 0; otherwise
    [AssertionError] when [max_target_length] or
    [max_prefill_predict_length] is not a multiple of the page size;
    otherwise [TypeError], from the first [jnp.zeros], when [num_pages] is
    negative. *)
Theorem init_raises n p s mt mp :
  p = 0 \/ mt mod p <> 0 \/ mp mod p <> 0 \/ n < 0 ->
  PageManager_init n p s mt mp =
    inl (if p =? 0 then ZeroDivisionError
         else if (mt mod p =? 0) && (mp mod p =? 0) then TypeError
         else AssertionError "").
Proof.
  intros H. unfold PageManager_init.
  destruct (p =? 0) eqn:Hp; [done|].
  destruct (mt mod p =? 0) eqn:Hmt; simpl; [|done].
  destruct (mp mod p =? 0) eqn:Hmp; simpl; [|done].
  assert ((n <? 0) = true) as -> by lia. done.
Qed.

Lemma init_raises_witness :
  (4 = 0 \/ 16 mod 4 <> 0 \/ 8 mod 4 <> 0 \/ (-1) < 0) /\
  PageManager_init (-1) 4 2 16 8 = inl TypeError.
Proof.
  assert (4 = 0 \/ 16 mod 4 <> 0 \/ 8 mod 4 <> 0 \/ (-1) < 0) as H.
  { right. right. right. lia. }
  split; [exact H|]. exact (init_raises (-1) 4 2 16 8 H).
Defined.
